(** * Authorization checks of pomerium's authorize service (authorize/grpc.go)

    A shallow embedding of [IsAuthorized], [Check] and their helpers
    [getFullURL], [getCheckRequestHeaders], [getCheckRequestURL] and
    [loadSessionFromCheckRequest], together with the parts of Go's standard
    library they call: net/url ([Parse], [String], [ResolveReference],
    [Query], [Values.Set], [Values.Encode], [QueryEscape], [QueryUnescape])
    and net/textproto ([CanonicalMIMEHeaderKey]), as of Go 1.14.

    Go strings are byte sequences: they are modelled by [string], whose
    characters are the 256 values of [ascii]. Go maps are modelled by
    [gmap]. *)

From Stdlib Require Import Strings.String Strings.Ascii NArith Bool.
From stdpp Require Import base option list gmap strings fin_maps sorting.

Local Open Scope string_scope.

(** ** Bytes and the string helpers of package strings *)

Module bytes.

Definition code (c : ascii) : N := N_of_ascii c.

Definition between (lo hi c : ascii) : bool :=
  (code lo <=? code c)%N && (code c <=? code hi)%N.

Definition isLower (c : ascii) : bool := between "a" "z" c.
Definition isUpper (c : ascii) : bool := between "A" "Z" c.
Definition isDigit (c : ascii) : bool := between "0" "9" c.
Definition isAlnum (c : ascii) : bool := isLower c || isUpper c || isDigit c.

(** The double quote character, byte 0x22. *)
Definition dquote : ascii := ascii_of_N 34.

(** [oneOf c cs]: a Go [switch c] with the single case list [cs]. *)
Fixpoint oneOf (c : ascii) (cs : string) : bool :=
  match cs with
  | EmptyString => false
  | String d cs' => Ascii.eqb c d || oneOf c cs'
  end.

(** const toLower = 'a' - 'A' *)
Definition toLower : N := 32.

Definition lower (c : ascii) : ascii :=
  if isUpper c then ascii_of_N (code c + toLower) else c.
Definition upper (c : ascii) : ascii :=
  if isLower c then ascii_of_N (code c - toLower) else c.

End bytes.

Module strings.

(** strings.IndexByte; [None] stands for -1. *)
Fixpoint IndexByte (s : string) (c : ascii) : option nat :=
  match s with
  | EmptyString => None
  | String d s' =>
      if Ascii.eqb d c then Some 0
      else match IndexByte s' c with
           | Some i => Some (S i)
           | None => None
           end
  end.

(** strings.IndexAny. *)
Fixpoint IndexAny (s chars : string) : option nat :=
  match s with
  | EmptyString => None
  | String d s' =>
      if bytes.oneOf d chars then Some 0
      else match IndexAny s' chars with
           | Some i => Some (S i)
           | None => None
           end
  end.

(** strings.LastIndex for a one-byte separator. *)
Fixpoint LastIndexByte (s : string) (c : ascii) : option nat :=
  match s with
  | EmptyString => None
  | String d s' =>
      match LastIndexByte s' c with
      | Some i => Some (S i)
      | None => if Ascii.eqb d c then Some 0 else None
      end
  end.

Fixpoint HasPrefix (s pre : string) {struct pre} : bool :=
  match pre, s with
  | EmptyString, _ => true
  | String a pre', String b s' => Ascii.eqb b a && HasPrefix s' pre'
  | String _ _, EmptyString => false
  end.

(** strings.Index: first position at which [sub] occurs in [s]. *)
Fixpoint Index (s sub : string) : option nat :=
  if HasPrefix s sub then Some 0
  else match s with
       | EmptyString => None
       | String _ s' =>
           match Index s' sub with
           | Some i => Some (S i)
           | None => None
           end
       end.

Definition Contains (s sub : string) : bool :=
  match Index s sub with Some _ => true | None => false end.

(** s[:i] and s[i:] *)
Fixpoint take (i : nat) (s : string) : string :=
  match i, s with
  | S i', String c s' => String c (take i' s')
  | _, _ => EmptyString
  end.

Fixpoint drop (i : nat) (s : string) : string :=
  match i, s with
  | S i', String _ s' => drop i' s'
  | _, _ => s
  end.

(** strings.Count for a one-byte separator. *)
Fixpoint CountByte (s : string) (c : ascii) : nat :=
  match s with
  | EmptyString => 0
  | String d s' => (if Ascii.eqb d c then 1 else 0) + CountByte s' c
  end.

(** The last byte of a string, if any (for HasSuffix with one byte). *)
Fixpoint last (s : string) : option ascii :=
  match s with
  | EmptyString => None
  | String c EmptyString => Some c
  | String _ s' => last s'
  end.

Definition HasSuffixByte (s : string) (c : ascii) : bool :=
  match last s with Some d => Ascii.eqb d c | None => false end.

(** strings.ToLower on ASCII letters (used on URL schemes, which hold
    ASCII letters, digits, '+', '-' and '.' only). *)
Fixpoint ToLower (s : string) : string :=
  match s with
  | EmptyString => EmptyString
  | String c s' => String (bytes.lower c) (ToLower s')
  end.

(** [fields sep s]: the pieces of [s] between the bytes accepted by
    [sep]; strings.Split(s, "/") is [fields (eqb "/") s]. *)
Fixpoint fields (sep : ascii -> bool) (s : string) : list string :=
  match s with
  | EmptyString => [EmptyString]
  | String c s' =>
      if sep c then EmptyString :: fields sep s'
      else match fields sep s' with
           | h :: t => String c h :: t
           | [] => [String c EmptyString]
           end
  end.

Definition Split (s : string) (c : ascii) : list string :=
  fields (fun d => Ascii.eqb d c) s.

(** strings.Join *)
Fixpoint Join (l : list string) (sep : string) : string :=
  match l with
  | [] => EmptyString
  | [x] => x
  | x :: l' => x ++ sep ++ Join l' sep
  end.

Definition TrimPrefix (s pre : string) : string :=
  if HasPrefix s pre then drop (String.length pre) s else s.

End strings.

(** ** Package net/url *)

Module url.

(** type encoding int *)
Inductive encoding : Type :=
| encodePath
| encodePathSegment
| encodeHost
| encodeZone
| encodeUserPassword
| encodeQueryComponent
| encodeFragment.

Definition isHostOrZone (mode : encoding) : bool :=
  match mode with encodeHost | encodeZone => true | _ => false end.
Definition isQueryComponent (mode : encoding) : bool :=
  match mode with encodeQueryComponent => true | _ => false end.
Definition isFragment (mode : encoding) : bool :=
  match mode with encodeFragment => true | _ => false end.

Definition ishex (c : ascii) : bool :=
  bytes.isDigit c || bytes.between "a" "f" c || bytes.between "A" "F" c.

Definition unhex (c : ascii) : N :=
  if bytes.isDigit c then bytes.code c - bytes.code "0"
  else if bytes.between "a" "f" c then bytes.code c - bytes.code "a" + 10
  else if bytes.between "A" "F" c then bytes.code c - bytes.code "A" + 10
  else 0.

(** shouldEscape reports whether the byte must be escaped when it appears
    in the part of a URL given by [mode]. *)
Definition shouldEscape (c : ascii) (mode : encoding) : bool :=
  if bytes.isAlnum c then false
  else if isHostOrZone mode
          && (bytes.oneOf c "!$&'()*+,;=:[]<>" || Ascii.eqb c bytes.dquote)
  then false
  else if bytes.oneOf c "-_.~" then false
  else
    let otherwise :=
      if isFragment mode && bytes.oneOf c "!()*" then false else true in
    if bytes.oneOf c "$&+,/:;=?@" then
      match mode with
      | encodePath => Ascii.eqb c "?"
      | encodePathSegment => bytes.oneOf c "/;,?"
      | encodeUserPassword => bytes.oneOf c "@/?:"
      | encodeQueryComponent => true
      | encodeFragment => false
      | encodeHost | encodeZone => otherwise
      end
    else otherwise.

(** "0123456789ABCDEF"[n] *)
Definition upperhex (n : N) : ascii :=
  match String.get (N.to_nat n) "0123456789ABCDEF" with
  | Some c => c
  | None => "0"%char
  end.

(** The first loop of escape: how many spaces become '+' and how many
    bytes become a %XX triple. *)
Fixpoint escapeCount (s : string) (mode : encoding) : nat * nat :=
  match s with
  | EmptyString => (0, 0)
  | String c s' =>
      let '(spaceCount, hexCount) := escapeCount s' mode in
      if shouldEscape c mode then
        if Ascii.eqb c " " && isQueryComponent mode
        then (S spaceCount, hexCount)
        else (spaceCount, S hexCount)
      else (spaceCount, hexCount)
  end.

(** The branch of escape taken when no byte needs a %XX triple. *)
Fixpoint spacesToPlus (s : string) : string :=
  match s with
  | EmptyString => EmptyString
  | String c s' =>
      String (if Ascii.eqb c " " then "+"%char else c) (spacesToPlus s')
  end.

(** The last loop of escape. *)
Fixpoint escapeBytes (s : string) (mode : encoding) : string :=
  match s with
  | EmptyString => EmptyString
  | String c s' =>
      if Ascii.eqb c " " && isQueryComponent mode then
        String "+" (escapeBytes s' mode)
      else if shouldEscape c mode then
        String "%"
          (String (upperhex (N.shiftr (bytes.code c) 4))
             (String (upperhex (N.land (bytes.code c) 15))
                (escapeBytes s' mode)))
      else String c (escapeBytes s' mode)
  end.

Definition escape (s : string) (mode : encoding) : string :=
  let '(spaceCount, hexCount) := escapeCount s mode in
  if Nat.eqb spaceCount 0 && Nat.eqb hexCount 0 then s
  else if Nat.eqb hexCount 0 then spacesToPlus s
  else escapeBytes s mode.

Definition QueryEscape (s : string) : string := escape s encodeQueryComponent.

(** The first loop of unescape: it checks the %-triples and the host
    bytes, and returns the number of '%' and whether a '+' has to be
    turned into a space; [None] is the error return (an EscapeError or an
    InvalidHostError). *)
Fixpoint unescapeScan (s : string) (mode : encoding) : option (nat * bool) :=
  match s with
  | EmptyString => Some (0, false)
  | String c s1 =>
      if Ascii.eqb c "%" then
        match s1 with
        | String h1 (String h2 s3) =>
            if negb (ishex h1) || negb (ishex h2) then None
            else if match mode with encodeHost => true | _ => false end
                    && (unhex h1 <? 8)%N
                    && negb (Ascii.eqb h1 "2" && Ascii.eqb h2 "5")
            then None
            else if match mode with encodeZone => true | _ => false end
                    && (let v := ascii_of_N (N.lor (N.shiftl (unhex h1) 4) (unhex h2)) in
                        negb (Ascii.eqb h1 "2" && Ascii.eqb h2 "5")
                        && negb (Ascii.eqb v " ")
                        && shouldEscape v encodeHost)
            then None
            else
              match unescapeScan s3 mode with
              | Some (n, hasPlus) => Some (S n, hasPlus)
              | None => None
              end
        | _ => None
        end
      else if Ascii.eqb c "+" then
        match unescapeScan s1 mode with
        | Some (n, _) => Some (n, isQueryComponent mode)
        | None => None
        end
      else if isHostOrZone mode && (bytes.code c <? 128)%N
              && shouldEscape c encodeHost
      then None
      else unescapeScan s1 mode
  end.

(** The second loop of unescape, run on a string that passed the scan. *)
Fixpoint unescapeBytes (s : string) (mode : encoding) : string :=
  match s with
  | EmptyString => EmptyString
  | String c s1 =>
      if Ascii.eqb c "%" then
        match s1 with
        | String h1 (String h2 s3) =>
            String (ascii_of_N (N.lor (N.shiftl (unhex h1) 4) (unhex h2)))
              (unescapeBytes s3 mode)
        | _ => EmptyString
        end
      else if Ascii.eqb c "+" then
        String (if isQueryComponent mode then " "%char else "+"%char)
          (unescapeBytes s1 mode)
      else String c (unescapeBytes s1 mode)
  end.

Definition unescape (s : string) (mode : encoding) : option string :=
  match unescapeScan s mode with
  | None => None
  | Some (n, hasPlus) =>
      if Nat.eqb n 0 && negb hasPlus then Some s
      else Some (unescapeBytes s mode)
  end.

Definition QueryUnescape (s : string) : option string :=
  unescape s encodeQueryComponent.

(** type Userinfo *)
Record Userinfo : Type := mkUserinfo {
  username : string;
  password : string;
  passwordSet : bool
}.

(** type URL. A nil [User] is [None]. *)
Record URL : Type := mkURL {
  Scheme : string;
  Opaque : string;
  User : option Userinfo;
  Host : string;
  Path : string;
  RawPath : string;
  ForceQuery : bool;
  RawQuery : string;
  Fragment : string
}.

(** The zero value [URL{}]. *)
Definition zero : URL := mkURL "" "" None "" "" "" false "" "".

Definition withScheme (u : URL) (x : string) : URL :=
  mkURL x (Opaque u) (User u) (Host u) (Path u) (RawPath u) (ForceQuery u)
    (RawQuery u) (Fragment u).
Definition withOpaque (u : URL) (x : string) : URL :=
  mkURL (Scheme u) x (User u) (Host u) (Path u) (RawPath u) (ForceQuery u)
    (RawQuery u) (Fragment u).
Definition withUser (u : URL) (x : option Userinfo) : URL :=
  mkURL (Scheme u) (Opaque u) x (Host u) (Path u) (RawPath u) (ForceQuery u)
    (RawQuery u) (Fragment u).
Definition withHost (u : URL) (x : string) : URL :=
  mkURL (Scheme u) (Opaque u) (User u) x (Path u) (RawPath u) (ForceQuery u)
    (RawQuery u) (Fragment u).
Definition withPath (u : URL) (x : string) : URL :=
  mkURL (Scheme u) (Opaque u) (User u) (Host u) x (RawPath u) (ForceQuery u)
    (RawQuery u) (Fragment u).
Definition withRawPath (u : URL) (x : string) : URL :=
  mkURL (Scheme u) (Opaque u) (User u) (Host u) (Path u) x (ForceQuery u)
    (RawQuery u) (Fragment u).
Definition withRawQuery (u : URL) (x : string) : URL :=
  mkURL (Scheme u) (Opaque u) (User u) (Host u) (Path u) (RawPath u)
    (ForceQuery u) x (Fragment u).
Definition withFragment (u : URL) (x : string) : URL :=
  mkURL (Scheme u) (Opaque u) (User u) (Host u) (Path u) (RawPath u)
    (ForceQuery u) (RawQuery u) x.

Definition nonEmpty (s : string) : bool := negb (String.eqb s "").

(** func (u *Userinfo) String() string, on a non-nil receiver. *)
Definition Userinfo_String (u : Userinfo) : string :=
  let s := escape (username u) encodeUserPassword in
  if passwordSet u then s ++ ":" ++ escape (password u) encodeUserPassword
  else s.

Fixpoint stringContainsCTLByte (s : string) : bool :=
  match s with
  | EmptyString => false
  | String b s' =>
      if (bytes.code b <? bytes.code " ")%N || (bytes.code b =? 127)%N then true
      else stringContainsCTLByte s'
  end.

(** getscheme: [rest] is rawurl[i:]. [None] is the error
    "missing protocol scheme". *)
Fixpoint getschemeFrom (rawurl : string) (i : nat) (rest : string)
  : option (string * string) :=
  match rest with
  | EmptyString => Some ("", rawurl)
  | String c rest' =>
      if bytes.isLower c || bytes.isUpper c then
        getschemeFrom rawurl (S i) rest'
      else if bytes.isDigit c || bytes.oneOf c "+-." then
        if Nat.eqb i 0 then Some ("", rawurl)
        else getschemeFrom rawurl (S i) rest'
      else if Ascii.eqb c ":" then
        if Nat.eqb i 0 then None
        else Some (strings.take i rawurl, strings.drop (S i) rawurl)
      else Some ("", rawurl)
  end.

Definition getscheme (rawurl : string) : option (string * string) :=
  getschemeFrom rawurl 0 rawurl.

(** split slices s at the first occurrence of sep; with [cutc] the
    separator is left out of the second part. *)
Definition split (s : string) (sep : ascii) (cutc : bool) : string * string :=
  match strings.IndexByte s sep with
  | None => (s, "")
  | Some i =>
      if cutc then (strings.take i s, strings.drop (S i) s)
      else (strings.take i s, strings.drop i s)
  end.

Fixpoint allDigits (s : string) : bool :=
  match s with
  | EmptyString => true
  | String b s' => bytes.isDigit b && allDigits s'
  end.

Definition validOptionalPort (port : string) : bool :=
  match port with
  | EmptyString => true
  | String c digits => if Ascii.eqb c ":" then allDigits digits else false
  end.

Fixpoint validUserinfo (s : string) : bool :=
  match s with
  | EmptyString => true
  | String r s' =>
      if bytes.isAlnum r || bytes.oneOf r "-._:~!$&'()*+,;=%@"
      then validUserinfo s'
      else false
  end.

Definition parseHost (host : string) : option string :=
  if strings.HasPrefix host "[" then
    match strings.LastIndexByte host "]" with
    | None => None
    | Some i =>
        let colonPort := strings.drop (S i) host in
        if negb (validOptionalPort colonPort) then None
        else
          match strings.Index (strings.take i host) "%25" with
          | Some zone =>
              host1 ← unescape (strings.take zone host) encodeHost;
              host2 ← unescape (strings.take (i - zone) (strings.drop zone host))
                        encodeZone;
              host3 ← unescape (strings.drop i host) encodeHost;
              Some (host1 ++ host2 ++ host3)
          | None => unescape host encodeHost
          end
    end
  else
    match strings.LastIndexByte host ":" with
    | Some i =>
        if negb (validOptionalPort (strings.drop i host)) then None
        else unescape host encodeHost
    | None => unescape host encodeHost
    end.

Definition parseAuthority (authority : string)
  : option (option Userinfo * string) :=
  match strings.LastIndexByte authority "@" with
  | None =>
      host ← parseHost authority;
      Some (None, host)
  | Some i =>
      host ← parseHost (strings.drop (S i) authority);
      let userinfo := strings.take i authority in
      if negb (validUserinfo userinfo) then None
      else if negb (strings.Contains userinfo ":") then
        userinfo' ← unescape userinfo encodeUserPassword;
        Some (Some (mkUserinfo userinfo' "" false), host)
      else
        let '(username0, password0) := split userinfo ":" true in
        username' ← unescape username0 encodeUserPassword;
        password' ← unescape password0 encodeUserPassword;
        Some (Some (mkUserinfo username' password' true), host)
  end.

(** setPath sets Path and RawPath from an encoded path. *)
Definition setPath (u : URL) (p : string) : option URL :=
  path ← unescape p encodePath;
  let u := withPath u path in
  if String.eqb p (escape path encodePath) then Some (withRawPath u "")
  else Some (withRawPath u p).

Fixpoint validEncodedPath (s : string) : bool :=
  match s with
  | EmptyString => true
  | String c s' =>
      if bytes.oneOf c "!$&'()*+,;=:@" || bytes.oneOf c "[]" || Ascii.eqb c "%"
      then validEncodedPath s'
      else if shouldEscape c encodePath then false
      else validEncodedPath s'
  end.

Definition EscapedPath (u : URL) : string :=
  if nonEmpty (RawPath u) && validEncodedPath (RawPath u)
     && match unescape (RawPath u) encodePath with
        | Some p => String.eqb p (Path u)
        | None => false
        end
  then RawPath u
  else if String.eqb (Path u) "*" then "*"
  else escape (Path u) encodePath.

(** parse parses a URL from a string without fragment; [None] is the
    error return. *)
Definition parse (rawurl : string) (viaRequest : bool) : option URL :=
  if stringContainsCTLByte rawurl then None
  else if String.eqb rawurl "" && viaRequest then None
  else if String.eqb rawurl "*" then Some (withPath zero "*")
  else
    '(scheme, rest) ← getscheme rawurl;
    let url := withScheme zero (strings.ToLower scheme) in
    let '(url, rest) :=
      if strings.HasSuffixByte rest "?" && Nat.eqb (strings.CountByte rest "?") 1
      then (mkURL (Scheme url) "" None "" "" "" true "" "",
            strings.take (String.length rest - 1) rest)
      else
        let '(rest', query) := split rest "?" true in
        (withRawQuery url query, rest') in
    let rootless := negb (strings.HasPrefix rest "/") in
    if rootless && nonEmpty (Scheme url) then Some (withOpaque url rest)
    else if rootless && viaRequest then None
    else if rootless
            && match strings.Index rest ":", strings.Index rest "/" with
               | Some colon, Some slash => Nat.ltb colon slash
               | Some colon, None => true
               | None, _ => false
               end
    then None
    else
      '(url, rest) ←
        (if (nonEmpty (Scheme url)
             || negb viaRequest && negb (strings.HasPrefix rest "///"))
            && strings.HasPrefix rest "//"
         then
           let '(authority, rest') := split (strings.drop 2 rest) "/" false in
           '(user, host) ← parseAuthority authority;
           Some (withHost (withUser url user) host, rest')
         else Some (url, rest));
      setPath url rest.

(** Parse parses rawurl into a URL structure. *)
Definition Parse (rawurl : string) : option URL :=
  let '(u, frag) := split rawurl "#" true in
  url ← parse u false;
  if String.eqb frag "" then Some url
  else
    fragment ← unescape frag encodeFragment;
    Some (withFragment url fragment).

(** func (u *URL) String() string *)
Definition URL_String (u : URL) : string :=
  let buf := if nonEmpty (Scheme u) then Scheme u ++ ":" else "" in
  let buf :=
    if nonEmpty (Opaque u) then buf ++ Opaque u
    else
      let buf :=
        if nonEmpty (Scheme u) || nonEmpty (Host u) || bool_decide (User u ≠ None)
        then
          let buf :=
            if nonEmpty (Host u) || nonEmpty (Path u) || bool_decide (User u ≠ None)
            then buf ++ "//" else buf in
          let buf :=
            match User u with
            | Some ui => buf ++ Userinfo_String ui ++ "@"
            | None => buf
            end in
          if nonEmpty (Host u) then buf ++ escape (Host u) encodeHost else buf
        else buf in
      let path := EscapedPath u in
      let buf :=
        match path with
        | String c _ =>
            if negb (Ascii.eqb c "/") && nonEmpty (Host u) then buf ++ "/"
            else buf
        | EmptyString => buf
        end in
      let buf :=
        if Nat.eqb (String.length buf) 0 then
          match strings.IndexByte path ":" with
          | Some i =>
              match strings.IndexByte (strings.take i path) "/" with
              | None => buf ++ "./"
              | Some _ => buf
              end
          | None => buf
          end
        else buf in
      buf ++ path in
  let buf :=
    if ForceQuery u || nonEmpty (RawQuery u) then buf ++ "?" ++ RawQuery u
    else buf in
  if nonEmpty (Fragment u) then buf ++ "#" ++ escape (Fragment u) encodeFragment
  else buf.

(** resolvePath applies the special path segments of ref to base. *)
Definition resolvePath (base ref : string) : string :=
  let full :=
    match ref with
    | EmptyString => base
    | String c _ =>
        if negb (Ascii.eqb c "/") then
          match strings.LastIndexByte base "/" with
          | Some i => strings.take (S i) base ++ ref
          | None => ref
          end
        else ref
    end in
  if String.eqb full "" then ""
  else
    let src := strings.Split full "/" in
    let dst :=
      foldl (fun dst elem =>
               if String.eqb elem "." then dst
               else if String.eqb elem ".." then take (length dst - 1) dst
               else (dst ++ [elem])%list) [] src in
    let dst :=
      match last src with
      | Some l =>
          if String.eqb l "." || String.eqb l ".." then (dst ++ [""])%list
          else dst
      | None => dst
      end in
    "/" ++ strings.TrimPrefix (strings.Join dst "/") "/".

(** setPath's error is ignored by ResolveReference: on error the URL is
    left as it was. *)
Definition setPath_ (u : URL) (p : string) : URL :=
  match setPath u p with Some u' => u' | None => u end.

(** func (u *URL) ResolveReference(ref *URL) *URL *)
Definition URL_ResolveReference (u ref : URL) : URL :=
  let url := ref in
  let url := if String.eqb (Scheme ref) "" then withScheme url (Scheme u) else url in
  if nonEmpty (Scheme ref) || nonEmpty (Host ref) || bool_decide (User ref ≠ None)
  then setPath_ url (resolvePath (EscapedPath ref) "")
  else if nonEmpty (Opaque ref) then
    withPath (withHost (withUser url None) "") ""
  else
    let url :=
      if String.eqb (Path ref) "" && String.eqb (RawQuery ref) "" then
        let url := withRawQuery url (RawQuery u) in
        if String.eqb (Fragment ref) "" then withFragment url (Fragment u)
        else url
      else url in
    let url := withUser (withHost url (Host u)) (User u) in
    setPath_ url (resolvePath (EscapedPath u) (EscapedPath ref)).

(** type Values map[string][]string *)
Abbreviation Values := (gmap string (list string)).

(** One round of the loop of parseQuery, on the piece [key] of the query
    between two separators; the boolean records that no error was met. *)
Definition parseQueryStep (acc : Values * bool) (key : string) : Values * bool :=
  let '(m, ok) := acc in
  if String.eqb key "" then (m, ok)
  else
    let '(key, value) :=
      match strings.IndexByte key "=" with
      | Some i => (strings.take i key, strings.drop (S i) key)
      | None => (key, "")
      end in
    match QueryUnescape key with
    | None => (m, false)
    | Some key =>
        match QueryUnescape value with
        | None => (m, false)
        | Some value => (<[key := (default [] (m !! key) ++ [value])%list]> m, ok)
        end
    end.

(** parseQuery cuts the query at every '&' and ';' and runs the loop
    body on the pieces from left to right. *)
Definition parseQuery (m : Values) (query : string) : Values * bool :=
  foldl parseQueryStep (m, true) (strings.fields (fun c => bytes.oneOf c "&;") query).

Definition ParseQuery (query : string) : Values * bool := parseQuery ∅ query.

(** func (u *URL) Query() Values: the error of ParseQuery is dropped. *)
Definition URL_Query (u : URL) : Values := fst (ParseQuery (RawQuery u)).

Definition Values_Get (v : Values) (key : string) : string :=
  match default [] (v !! key) with
  | [] => ""
  | x :: _ => x
  end.

Definition Values_Set (v : Values) (key value : string) : Values :=
  <[key := [value]]> v.

(** The order of sort.Strings: bytewise lexicographic. *)
Definition stringLe (a b : string) : Prop := String.leb a b = true.

#[global] Instance stringLe_dec (a b : string) : Decision (stringLe a b).
Proof. unfold stringLe. apply _. Defined.

Definition sortedKeys (v : Values) : list string :=
  merge_sort stringLe (map fst (map_to_list v)).

(** func (v Values) Encode() string *)
Definition Values_Encode (v : Values) : string :=
  foldl (fun buf k =>
           let vs := default [] (v !! k) in
           let keyEscaped := QueryEscape k in
           foldl (fun buf val =>
                    (if Nat.ltb 0 (String.length buf) then buf ++ "&" else buf)
                      ++ keyEscaped ++ "=" ++ QueryEscape val)
             buf vs)
    "" (sortedKeys v).

End url.

(** ** Package net/textproto *)

Module textproto.

(** isTokenTable: the tchar bytes of RFC 7230. *)
Definition validHeaderFieldByte (b : ascii) : bool :=
  bytes.isAlnum b || bytes.oneOf b "!#$%&'*+-.^_`|~".

Fixpoint allValid (a : string) : bool :=
  match a with
  | EmptyString => true
  | String c a' => validHeaderFieldByte c && allValid a'
  end.

(** The second loop of canonicalMIMEHeaderKey: upper case for the first
    letter and after each dash, lower case elsewhere. *)
Fixpoint canonicalize (upper : bool) (a : string) : string :=
  match a with
  | EmptyString => EmptyString
  | String c a' =>
      let c :=
        if upper && bytes.isLower c then bytes.upper c
        else if negb upper && bytes.isUpper c then bytes.lower c
        else c in
      String c (canonicalize (Ascii.eqb c "-") a')
  end.

(** canonicalMIMEHeaderKey: a key holding a byte that is no token byte is
    returned unchanged. The lookup in commonHeader returns a string equal
    to its key. *)
Definition canonicalMIMEHeaderKey (a : string) : string :=
  if allValid a then canonicalize true a else a.

(** The quick check of CanonicalMIMEHeaderKey; [rest] is the part of [s]
    still to be read. *)
Fixpoint quickCheck (s : string) (upper : bool) (rest : string) : string :=
  match rest with
  | EmptyString => s
  | String c rest' =>
      if negb (validHeaderFieldByte c) then s
      else if upper && bytes.isLower c then canonicalMIMEHeaderKey s
      else if negb upper && bytes.isUpper c then canonicalMIMEHeaderKey s
      else quickCheck s (Ascii.eqb c "-") rest'
  end.

Definition CanonicalMIMEHeaderKey (s : string) : string := quickCheck s true s.

End textproto.

(** ** Package net/http *)

Module http.

Definition CanonicalHeaderKey (s : string) : string :=
  textproto.CanonicalMIMEHeaderKey s.

End http.

(** ** Go error values and the outcome of a call *)

(** Modelled from the spec: the sentinel errors of internal/sessions
    (errors.go is not among the sources). The spec's SessionError is a closed
    classification with exactly the kinds Expired, IssuedInFuture, Malformed,
    NoSessionFound, NotValidYet and Other(detail). Go compares error values
    by identity: [Other detail] stands for every error value that is none of
    the five sentinels, and [detail] is the text its Error method returns.
    A nil error is [None] in [option error]. *)
Inductive error : Type :=
| ErrExpired
| ErrIssuedInTheFuture
| ErrMalformed
| ErrNoSessionFound
| ErrNotValidYet
| Other (detail : string).

(** What a call of a method with a pointer result and an error result
    does: it returns a value with a nil error, returns a nil value with an
    error, or panics (a nil pointer dereference). *)
Inductive outcome (T : Type) : Type :=
| Return (v : T)
| Fail (err : error)
| Panic.
Arguments Return {T} v.
Arguments Fail {T} err.
Arguments Panic {T}.

(** ** The messages of the two protocols *)

(** google.golang.org/grpc/codes: the three codes Check uses. *)
Module codes.
Inductive Code : Type := OK | PermissionDenied | Unauthenticated.
Definition int32 (c : Code) : Z :=
  match c with OK => 0 | PermissionDenied => 7 | Unauthenticated => 16 end.
End codes.

(** google.golang.org/genproto/googleapis/rpc/status *)
Module status.
Record Status : Type := mkStatus { Code : Z; Message : string }.
End status.

(** envoy/type: the two HTTP status codes Check uses. *)
Module envoy_type.
Inductive StatusCode : Type := StatusCode_Found | StatusCode_Forbidden.
Record HttpStatus : Type := mkHttpStatus { Code : StatusCode }.
End envoy_type.

(** envoy/api/v2/core *)
Module envoy_api_v2_core.
Record HeaderValue : Type := mkHeaderValue { Key : string; Value : string }.
Record HeaderValueOption : Type := mkHeaderValueOption { Header : HeaderValue }.
End envoy_api_v2_core.

(** envoy/service/auth/v2. The chain of nil-safe getters
    in.GetAttributes().GetRequest().GetHttp() yields a nil pointer as soon as
    one link is missing: [Http] is [None] then. A nil map of headers behaves
    as the empty map in every use made of it. [SourceAddress] is the text of
    in.GetAttributes().GetSource().GetAddress().String(). *)
Module envoy_service_auth_v2.

Record AttributeContext_HttpRequest : Type := mkHttpRequest {
  Method : string;
  Headers : gmap string string;
  Path : string;
  Host : string;
  Scheme : string;
  Query : string
}.

Record CheckRequest : Type := mkCheckRequest {
  Http : option AttributeContext_HttpRequest;
  SourceAddress : string
}.

Record OkHttpResponse : Type := mkOkHttpResponse {
  OkHeaders : list envoy_api_v2_core.HeaderValueOption
}.

Record DeniedHttpResponse : Type := mkDeniedHttpResponse {
  DeniedStatus : envoy_type.HttpStatus;
  DeniedHeaders : list envoy_api_v2_core.HeaderValueOption;
  DeniedBody : string
}.

(** The oneof http_response. *)
Inductive isCheckResponse_HttpResponse : Type :=
| CheckResponse_OkResponse (OkResponse : OkHttpResponse)
| CheckResponse_DeniedResponse (DeniedResponse : DeniedHttpResponse).

Record CheckResponse : Type := mkCheckResponse {
  Status : status.Status;
  HttpResponse : isCheckResponse_HttpResponse
}.

End envoy_service_auth_v2.

Module auth := envoy_service_auth_v2.

(** authorize/evaluator: the canonical request handed to the policy
    evaluator. *)
Module evaluator.
Record Request : Type := mkRequest {
  User : string;
  Header : gmap string (list string);
  Host : string;
  Method : string;
  RequestURI : string;
  RemoteAddr : string;
  URL : string
}.
End evaluator.

(** internal/grpc/authorize: the messages of the native call. *)
Module pb.

Record IsAuthorizedRequest : Type := mkIsAuthorizedRequest {
  UserToken : string;
  RequestMethod : string;
  RequestUrl : string;
  RequestHost : string;
  RequestRequestUri : string;
  RequestRemoteAddr : string;
  RequestHeaders : gmap string (list string)
}.

(** Modelled from the spec: the reply of the evaluator (authorize.proto is
    not among the sources), "a boolean allow plus an opaque rejection
    cause". *)
Record IsAuthorizedReply : Type := mkIsAuthorizedReply {
  Allow : bool;
  Cause : string
}.

End pb.

(** config.Options: the fields loadSessionFromCheckRequest reads. *)
Module config.
Record Options : Type := mkOptions {
  SharedKey : string;
  AuthenticateURL : url.URL;
  CookieName : string;
  CookieDomain : string;
  CookieSecure : bool;
  CookieHTTPOnly : bool;
  CookieExpire : Z
}.
End config.

(** internal/sessions/cookie *)
Module cookie.
Record Options : Type := mkOptions {
  Name : string;
  Domain : string;
  Secure : bool;
  HTTPOnly : bool;
  Expire : Z
}.
End cookie.

(** ** Package authorize (authorize/grpc.go) *)

Module authorize.

(** getFullURL, up to the call of String: the URL value it serialises. *)
Definition fullURL (rawurl host : string) : url.URL :=
  let u :=
    match url.Parse rawurl with
    | Some u => u
    | None => url.withPath url.zero rawurl
    end in
  let u := if String.eqb (url.Host u) "" then url.withHost u host else u in
  if String.eqb (url.Scheme u) "" then url.withScheme u "http" else u.

Definition getFullURL (rawurl host : string) : string :=
  url.URL_String (fullURL rawurl host).

(** cloneHeaders copies every value slice into the new map. *)
Definition cloneHeaders (h : gmap string (list string)) : gmap string (list string) :=
  (fun values => take (length values) values) <$> h.

(** getCheckRequestURL panics on a request without HTTP attributes: the
    field access h.Headers dereferences the nil pointer ([None]). *)
Definition getCheckRequestURL (req : auth.CheckRequest) : option url.URL :=
  match auth.Http req with
  | None => None
  | Some h =>
      let u := url.mkURL (auth.Scheme h) "" None (auth.Host h) (auth.Path h) ""
                 false (auth.Query h) "" in
      match auth.Headers h !! "x-forwarded-proto" with
      | Some fwdProto => Some (url.withScheme u fwdProto)
      | None => Some u
      end
  end.

Section Authorize.

(** The collaborators of Check: the signer factory of internal/encoding/jws,
    the cookie store of internal/sessions/cookie, the policy evaluator
    [a.pe] (its context argument is left out; a reply comes with a nil
    error), the options snapshot held by [a.currentOptions], and the name
    of the return-redirect query parameter, urlutil.QueryRedirectURI. *)
Context {Encoder Store : Type}.
Variable NewHS256Signer : string -> string -> Encoder + error.
Variable NewStore : cookie.Options -> Encoder -> Store + error.
Variable LoadSession : Store -> gmap string (list string) -> string * option error.
Variable pe : evaluator.Request -> pb.IsAuthorizedReply + error.
Variable currentOptions : config.Options.
Variable QueryRedirectURI : string.

(** A Go [range] over a map visits every entry once, in an order the
    language leaves unspecified: [mapRange m] is the order in which the
    entries of [m] are visited. One function stands for every range
    statement; the results below hold for each such function. *)
Variable mapRange : gmap string string -> list (string * string).

Definition isAuthorizedRequest (req : pb.IsAuthorizedRequest) : evaluator.Request :=
  {| evaluator.User := pb.UserToken req;
     evaluator.Header := cloneHeaders (pb.RequestHeaders req);
     evaluator.Host := pb.RequestHost req;
     evaluator.Method := pb.RequestMethod req;
     evaluator.RequestURI := pb.RequestRequestUri req;
     evaluator.RemoteAddr := pb.RequestRemoteAddr req;
     evaluator.URL := getFullURL (pb.RequestUrl req) (pb.RequestHost req) |}.

(** IsAuthorized checks to see if a given user is authorized to make a
    request. *)
Definition IsAuthorized (req : pb.IsAuthorizedRequest) : pb.IsAuthorizedReply + error :=
  pe (isAuthorizedRequest req).

Definition getCheckRequestHeaders (req : auth.CheckRequest) : gmap string (list string) :=
  match auth.Http req with
  | None => ∅
  | Some r =>
      foldl (fun h kv => <[http.CanonicalHeaderKey kv.1 := [kv.2]]> h)
        ∅ (mapRange (auth.Headers r))
  end.

Definition loadSessionFromCheckRequest (req : auth.CheckRequest) : string * option error :=
  let opts := currentOptions in
  match NewHS256Signer (config.SharedKey opts) (url.Host (config.AuthenticateURL opts)) with
  | inr err => ("", Some err)
  | inl encoder =>
      let cookieOptions :=
        {| cookie.Name := config.CookieName opts;
           cookie.Domain := config.CookieDomain opts;
           cookie.Secure := config.CookieSecure opts;
           cookie.HTTPOnly := config.CookieHTTPOnly opts;
           cookie.Expire := config.CookieExpire opts |} in
      match NewStore cookieOptions encoder with
      | inr err => ("", Some err)
      | inl cookieStore => LoadSession cookieStore (getCheckRequestHeaders req)
      end
  end.

(** The request Check hands to the evaluator. *)
Definition checkEvaluatorRequest (req : auth.CheckRequest) (sess : string)
    (requestURL : url.URL) : evaluator.Request :=
  {| evaluator.User := sess;
     evaluator.Header := getCheckRequestHeaders req;
     evaluator.Host := from_option auth.Host "" (auth.Http req);
     evaluator.Method := from_option auth.Method "" (auth.Http req);
     evaluator.RequestURI := url.URL_String requestURL;
     evaluator.RemoteAddr := auth.SourceAddress req;
     evaluator.URL := url.URL_String requestURL |}.

(** The sign-in URL Check redirects to. *)
Definition signInURL (requestURL : url.URL) : url.URL :=
  let signinURL :=
    url.URL_ResolveReference requestURL (url.withPath url.zero "/.pomerium/sign_in") in
  let q := url.URL_Query signinURL in
  let q := url.Values_Set q QueryRedirectURI (url.URL_String requestURL) in
  url.withRawQuery signinURL (url.Values_Encode q).

Definition allowed : auth.CheckResponse :=
  {| auth.Status := status.mkStatus (codes.int32 codes.OK) "OK";
     auth.HttpResponse :=
       auth.CheckResponse_OkResponse (auth.mkOkHttpResponse []) |}.

Definition deniedForbidden (msg : string) : auth.CheckResponse :=
  {| auth.Status := status.mkStatus (codes.int32 codes.PermissionDenied) msg;
     auth.HttpResponse :=
       auth.CheckResponse_DeniedResponse
         {| auth.DeniedStatus := envoy_type.mkHttpStatus envoy_type.StatusCode_Forbidden;
            auth.DeniedHeaders := [];
            auth.DeniedBody := "" |} |}.

Definition deniedUnauthenticatedRedirect (redirectTo : string) : auth.CheckResponse :=
  {| auth.Status := status.mkStatus (codes.int32 codes.Unauthenticated) "unauthenticated";
     auth.HttpResponse :=
       auth.CheckResponse_DeniedResponse
         {| auth.DeniedStatus := envoy_type.mkHttpStatus envoy_type.StatusCode_Found;
            auth.DeniedHeaders :=
              [envoy_api_v2_core.mkHeaderValueOption
                 (envoy_api_v2_core.mkHeaderValue "Location" redirectTo)];
            auth.DeniedBody := "" |} |}.

Definition Check (req : auth.CheckRequest) : outcome auth.CheckResponse :=
  let '(sess, sesserr) := loadSessionFromCheckRequest req in
  match getCheckRequestURL req with
  | None => Panic
  | Some requestURL =>
      match pe (checkEvaluatorRequest req sess requestURL) with
      | inr err => Fail err
      | inl reply =>
          if pb.Allow reply then Return allowed
          else
            match sesserr with
            | Some ErrExpired | Some ErrIssuedInTheFuture | Some ErrMalformed
            | Some ErrNoSessionFound | Some ErrNotValidYet =>
                (* redirect to login *)
                Return (deniedUnauthenticatedRedirect
                          (url.URL_String (signInURL requestURL)))
            | Some (Other detail) =>
                (* all other errors: msg = sesserr.Error() *)
                Return (deniedForbidden detail)
            | None => Return (deniedForbidden "")
            end
      end
  end.

End Authorize.

End authorize.

(** ** Concrete inputs used by the examples *)

Module examples.

(** A check request for http://a.com/a%20b?x=1&y that went through a
    TLS-terminating proxy. *)
Definition httpRequest : auth.AttributeContext_HttpRequest :=
  auth.mkHttpRequest "GET" {[ "x-foo" := "bar"; "x-forwarded-proto" := "https" ]}
    "/a b" "a.com" "http" "x=1&y".

Definition checkRequest : auth.CheckRequest :=
  auth.mkCheckRequest (Some httpRequest) "10.0.0.7:4711".

(** The same request with the forwarded protocol under its canonical
    casing only. *)
Definition checkRequestCanonicalCasing : auth.CheckRequest :=
  auth.mkCheckRequest
    (Some (auth.mkHttpRequest "GET" {[ "X-Forwarded-Proto" := "https" ]}
             "/a b" "a.com" "http" "x=1&y"))
    "10.0.0.7:4711".

(** The request URL Check builds for [checkRequest]. *)
Definition requestURL : url.URL :=
  url.mkURL "https" "" None "a.com" "/a b" "" false "x=1&y" "".

(** A check request whose header map holds x-foo and, under another
    casing, X-Foo. *)
Definition checkRequestTwoCasings : auth.CheckRequest :=
  auth.mkCheckRequest
    (Some (auth.mkHttpRequest "GET" {[ "x-foo" := "bar"; "X-Foo" := "baz" ]}
             "/" "a.com" "http" ""))
    "10.0.0.7:4711".

(** The native call of the spec's scenario, and one with the path only
    and an empty host field. *)
Definition nativeRequest : pb.IsAuthorizedRequest :=
  pb.mkIsAuthorizedRequest "token" "GET" "/foo?x=1" "a.com" "/foo?x=1"
    "10.0.0.7:4711" ∅.

Definition nativeRequestNoHost : pb.IsAuthorizedRequest :=
  pb.mkIsAuthorizedRequest "token" "GET" "/foo" "" "/foo" "10.0.0.7:4711" ∅.

Definition options : config.Options :=
  config.mkOptions "shared-key" (url.withHost (url.withScheme url.zero "https") "auth.a.com")
    "_pomerium" "a.com" true true 3600.

(** Collaborators: a signer and a store that always come up, a store
    that answers with a fixed session result, an evaluator with a fixed
    answer. *)
Definition newSigner (key issuer : string) : unit + error := inl tt.
Definition newStore (o : cookie.Options) (e : unit) : unit + error := inl tt.
Definition loadSession (r : string * option error) (s : unit)
    (h : gmap string (list string)) : string * option error := r.
Definition evaluate (r : pb.IsAuthorizedReply + error) (req : evaluator.Request)
    : pb.IsAuthorizedReply + error := r.
Definition deny : pb.IsAuthorizedReply := pb.mkIsAuthorizedReply false "policy".
Definition allow : pb.IsAuthorizedReply := pb.mkIsAuthorizedReply true "".

(** Check with these collaborators, for a session result and an
    evaluator answer. *)
Definition check (session : string * option error)
    (answer : pb.IsAuthorizedReply + error) (req : auth.CheckRequest)
    : outcome auth.CheckResponse :=
  authorize.Check newSigner newStore (loadSession session) (evaluate answer)
    options "pomerium_redirect_uri" map_to_list req.

End examples.

(** ** Plain host names *)

Module hostname.

(** The bytes of a plain host name: ASCII letters, digits, '-' and '.'. *)
Definition isHostnameByte (c : ascii) : bool :=
  bytes.isAlnum c || bytes.oneOf c "-.".

Fixpoint allHostnameBytes (s : string) : bool :=
  match s with
  | EmptyString => true
  | String c s' => isHostnameByte c && allHostnameBytes s'
  end.

(** A plain host name, as "example.com": not empty, without port, user,
    brackets or escapes. *)
Definition isHostname (s : string) : bool :=
  url.nonEmpty s && allHostnameBytes s.

End hostname.

(** ** A check request with a forged forwarded protocol *)

Module forged.

(** The header x-forwarded-proto holds a whole URL prefix in place of a
    protocol name. *)
Definition httpRequest : auth.AttributeContext_HttpRequest :=
  auth.mkHttpRequest "GET" {[ "x-forwarded-proto" := "https://evil.example/#" ]}
    "/" "a.com" "http" "".

Definition checkRequest : auth.CheckRequest :=
  auth.mkCheckRequest (Some httpRequest) "10.0.0.7:4711".

(** The request URL Check builds for [checkRequest]. *)
Definition requestURL : url.URL :=
  url.mkURL "https://evil.example/#" "" None "a.com" "/" "" false "" "".


End forged.

(** ** The decision mapping of Check *)

Section CheckDecision.

Context {Encoder Store : Type}.
Variable NewHS256Signer : string -> string -> Encoder + error.
Variable NewStore : cookie.Options -> Encoder -> Store + error.
Variable LoadSession : Store -> gmap string (list string) -> string * option error.
Variable pe : evaluator.Request -> pb.IsAuthorizedReply + error.
Variable currentOptions : config.Options.
Variable QueryRedirectURI : string.
Variable mapRange : gmap string string -> list (string * string).

Local Abbreviation Check :=
  (authorize.Check NewHS256Signer NewStore LoadSession pe currentOptions
     QueryRedirectURI mapRange).
Local Abbreviation loadSessionFromCheckRequest :=
  (authorize.loadSessionFromCheckRequest NewHS256Signer NewStore LoadSession
     currentOptions mapRange).
Local Abbreviation checkEvaluatorRequest := (authorize.checkEvaluatorRequest mapRange).
Local Abbreviation signInURL := (authorize.signInURL QueryRedirectURI).

(** Check, once the session is loaded and the request URL is built. *)
Lemma Check_unfold req sess sesserr requestURL :
  loadSessionFromCheckRequest req = (sess, sesserr) ->
  authorize.getCheckRequestURL req = Some requestURL ->
  Check req =
    match pe (checkEvaluatorRequest req sess requestURL) with
    | inr err => Fail err
    | inl reply =>
        if pb.Allow reply then Return authorize.allowed
        else
          match sesserr with
          | Some (Other detail) => Return (authorize.deniedForbidden detail)
          | None => Return (authorize.deniedForbidden "")
          | Some _ =>
              Return (authorize.deniedUnauthenticatedRedirect
                        (url.URL_String (signInURL requestURL)))
          end
    end.
Proof.
  intros Hsess Hurl. unfold authorize.Check. rewrite Hsess, Hurl.
  destruct (pe _) as [reply|err]; [|reflexivity].
  destruct (pb.Allow reply); [reflexivity|].
  destruct sesserr as [[]|]; reflexivity.
Qed.

(** C2: when the evaluator answers allow=true, Check returns the Allowed
    response (status OK, an ok-response without headers), whatever the
    session error is, the unrecoverable ones included. *)
Theorem C2_allow_is_allowed req sess sesserr requestURL reply :
  loadSessionFromCheckRequest req = (sess, sesserr) ->
  authorize.getCheckRequestURL req = Some requestURL ->
  pe (checkEvaluatorRequest req sess requestURL) = inl reply ->
  pb.Allow reply = true ->
  Check req
  = Return (auth.mkCheckResponse
              (status.mkStatus (codes.int32 codes.OK) "OK")
              (auth.CheckResponse_OkResponse (auth.mkOkHttpResponse []))).
Proof.
  intros Hsess Hurl Hpe Hallow.
  by rewrite (Check_unfold _ _ _ _ Hsess Hurl), Hpe, Hallow.
Qed.

(** C3: when the evaluator answers allow=false and there is no session
    error, Check returns the DeniedForbidden response with an empty
    message: status PermissionDenied with message "", HTTP status
    Forbidden, and no header (so no Location header). *)
Theorem C3_deny_without_session_error_is_forbidden req sess requestURL reply :
  loadSessionFromCheckRequest req = (sess, None) ->
  authorize.getCheckRequestURL req = Some requestURL ->
  pe (checkEvaluatorRequest req sess requestURL) = inl reply ->
  pb.Allow reply = false ->
  Check req
  = Return (auth.mkCheckResponse
              (status.mkStatus (codes.int32 codes.PermissionDenied) "")
              (auth.CheckResponse_DeniedResponse
                 (auth.mkDeniedHttpResponse
                    (envoy_type.mkHttpStatus envoy_type.StatusCode_Forbidden)
                    [] ""))).
Proof.
  intros Hsess Hurl Hpe Hdeny.
  by rewrite (Check_unfold _ _ _ _ Hsess Hurl), Hpe, Hdeny.
Qed.

(** C4, as amended: a session verification that fails with an error
    other than the five recoverable kinds, met by an evaluator answer
    allow=false, gives the DeniedForbidden response with status
    PermissionDenied and the error's text as message; an error of the
    evaluator itself is returned as the error of the call, with no
    CheckResponse. *)
Theorem C4_internal_errors req sess sesserr requestURL :
  loadSessionFromCheckRequest req = (sess, sesserr) ->
  authorize.getCheckRequestURL req = Some requestURL ->
  (forall detail reply,
      sesserr = Some (Other detail) ->
      pe (checkEvaluatorRequest req sess requestURL) = inl reply ->
      pb.Allow reply = false ->
      Check req
      = Return (auth.mkCheckResponse
                  (status.mkStatus (codes.int32 codes.PermissionDenied) detail)
                  (auth.CheckResponse_DeniedResponse
                     (auth.mkDeniedHttpResponse
                        (envoy_type.mkHttpStatus envoy_type.StatusCode_Forbidden)
                        [] ""))))
  /\ (forall err,
         pe (checkEvaluatorRequest req sess requestURL) = inr err ->
         Check req = Fail err).
Proof.
  intros Hsess Hurl. rewrite (Check_unfold _ _ _ _ Hsess Hurl). split.
  - intros detail reply -> -> ->. reflexivity.
  - intros err ->. reflexivity.
Qed.

(** A failing verifier construction is a session error of Check. *)
Lemma loadSession_signer_error req err :
  NewHS256Signer (config.SharedKey currentOptions)
    (url.Host (config.AuthenticateURL currentOptions)) = inr err ->
  loadSessionFromCheckRequest req = ("", Some err).
Proof. intros H. unfold authorize.loadSessionFromCheckRequest. by rewrite H. Qed.

(** Without HTTP attributes Check panics before the evaluator is asked. *)
Lemma Check_without_http req :
  auth.Http req = None -> Check req = Panic.
Proof.
  intros H. unfold authorize.Check, authorize.getCheckRequestURL. rewrite H.
  by destruct (loadSessionFromCheckRequest req).
Qed.

End CheckDecision.

(** ** Strings *)

Lemma append_nil_l (a : string) : "" ++ a = a.
Proof. reflexivity. Qed.

Lemma append_cons (x : ascii) (a b : string) : String x a ++ b = String x (a ++ b).
Proof. reflexivity. Qed.

Lemma append_assoc (a b c : string) : (a ++ b) ++ c = a ++ (b ++ c).
Proof.
  induction a as [|x a IH]; [reflexivity|]. by rewrite !append_cons, IH.
Qed.

Lemma append_nil_r (a : string) : a ++ "" = a.
Proof.
  induction a as [|x a IH]; [reflexivity|]. by rewrite append_cons, IH.
Qed.

Lemma nonEmpty_true (s : string) : url.nonEmpty s = true <-> s <> "".
Proof.
  unfold url.nonEmpty. destruct (String.eqb_spec s ""); simpl; split; congruence.
Qed.

Lemma nonEmpty_false (s : string) : url.nonEmpty s = false <-> s = "".
Proof.
  unfold url.nonEmpty. destruct (String.eqb_spec s ""); simpl; split; congruence.
Qed.

(** ** The request URL of a check request *)

(** A URL with a scheme is written scheme first. *)
Lemma URL_String_scheme (u : url.URL) :
  url.Scheme u <> "" ->
  exists rest, url.URL_String u = url.Scheme u ++ ":" ++ rest.
Proof.
  intros Hs. apply nonEmpty_true in Hs. unfold url.URL_String. rewrite Hs.
  simpl orb. cbv zeta.
  repeat match goal with
         | |- context [if ?b then _ else _] => destruct b
         | |- context [match ?o with Some _ => _ | None => _ end] => destruct o
         | |- context [match ?s with EmptyString => _ | String _ _ => _ end] =>
             destruct s
         end;
    rewrite ?append_assoc; eauto.
Qed.

(** C7: with scheme=http in the attributes and the header
    x-forwarded-proto: https, the request URL built by getCheckRequestURL
    has scheme https, and so has its text. *)
Theorem C7_forwarded_proto_overrides_scheme (req : auth.CheckRequest)
    (h : auth.AttributeContext_HttpRequest) :
  auth.Http req = Some h ->
  auth.Scheme h = "http" ->
  auth.Headers h !! "x-forwarded-proto" = Some "https" ->
  exists u,
    authorize.getCheckRequestURL req = Some u
    /\ url.Scheme u = "https"
    /\ exists rest, url.URL_String u = "https:" ++ rest.
Proof.
  intros Hh _ Hfwd. unfold authorize.getCheckRequestURL. rewrite Hh, Hfwd.
  eexists. split; [reflexivity|]. split; [reflexivity|].
  apply (URL_String_scheme (url.withScheme _ "https")). discriminate.
Qed.

Lemma C7_witness :
  exists u,
    authorize.getCheckRequestURL examples.checkRequest = Some u
    /\ url.Scheme u = "https"
    /\ exists rest, url.URL_String u = "https:" ++ rest.
Proof.
  apply (C7_forwarded_proto_overrides_scheme examples.checkRequest examples.httpRequest);
    reflexivity.
Defined.

(** C10: the override reads the raw header map under the exact key
    "x-forwarded-proto"; when that key is absent, whatever other keys the
    map holds (the same header under another casing, say), the scheme of
    the attributes is kept. *)
Theorem C10_forwarded_proto_exact_key (req : auth.CheckRequest)
    (h : auth.AttributeContext_HttpRequest) :
  auth.Http req = Some h ->
  auth.Headers h !! "x-forwarded-proto" = None ->
  exists u,
    authorize.getCheckRequestURL req = Some u
    /\ url.Scheme u = auth.Scheme h.
Proof.
  intros Hh Hfwd. unfold authorize.getCheckRequestURL. rewrite Hh, Hfwd.
  eexists. split; reflexivity.
Qed.

Lemma C10_witness :
  exists u,
    authorize.getCheckRequestURL examples.checkRequestCanonicalCasing = Some u
    /\ url.Scheme u = "http".
Proof.
  apply (C10_forwarded_proto_exact_key examples.checkRequestCanonicalCasing
           (auth.mkHttpRequest "GET" {[ "X-Forwarded-Proto" := "https" ]}
              "/a b" "a.com" "http" "x=1&y"));
    reflexivity.
Defined.

(** ** getFullURL *)

Ltac app_norm :=
  repeat (rewrite append_assoc || rewrite append_cons
          || rewrite append_nil_l || rewrite append_nil_r).

Lemma Parse_star : url.Parse "*" = Some (url.withPath url.zero "*").
Proof. reflexivity. Qed.

(** The URL getFullURL falls back to when the raw URL does not parse. *)
Lemma fullURL_fallback (rawurl host : string) :
  url.Parse rawurl = None ->
  authorize.fullURL rawurl host = url.mkURL "http" "" None host rawurl "" false "" "".
Proof.
  intros Hp. unfold authorize.fullURL. by rewrite Hp.
Qed.

Lemma URL_String_fallback (rawurl host : string) :
  rawurl <> "*" -> host <> "" ->
  let p := url.escape rawurl url.encodePath in
  url.URL_String (url.mkURL "http" "" None host rawurl "" false "" "")
  = "http://" ++ url.escape host url.encodeHost
      ++ (if String.eqb p "" || strings.HasPrefix p "/" then "" else "/") ++ p.
Proof.
  intros Hstar Hhost p. unfold url.URL_String, url.EscapedPath.
  cbn -[Ascii.eqb].
  apply nonEmpty_true in Hhost. rewrite Hhost.
  destruct (String.eqb_spec rawurl "*") as [|_]; [done|].
  fold p. destruct p as [|c p']; [|destruct (Ascii.eqb c "/") eqn:Hc];
    cbn -[Ascii.eqb]; rewrite ?Hc; cbn -[Ascii.eqb];
    app_norm; cbn -[Ascii.eqb]; by app_norm.
Qed.

(** The scheme of the URL getFullURL serialises is never empty. *)
Lemma fullURL_scheme (rawurl host : string) :
  url.Scheme (authorize.fullURL rawurl host) <> "".
Proof.
  unfold authorize.fullURL.
  match goal with |- context [if String.eqb (url.Scheme ?u) "" then _ else _] =>
    destruct (String.eqb_spec (url.Scheme u) "") end; [discriminate | assumption].
Qed.

(** C9: getFullURL is a total function and its result is never the empty
    string; when the raw URL does not parse, the result for host
    "example.com" is the text of the URL with scheme http, host
    example.com and the raw string as path: "http://example.com", a slash
    unless the escaped path brings its own, and the escaped path. *)
Theorem C9_getFullURL_total (rawurl host : string) :
  authorize.getFullURL rawurl host <> ""
  /\ (url.Parse rawurl = None ->
      let p := url.escape rawurl url.encodePath in
      authorize.fullURL rawurl "example.com"
      = url.mkURL "http" "" None "example.com" rawurl "" false "" ""
      /\ authorize.getFullURL rawurl "example.com"
         = "http://example.com"
             ++ (if String.eqb p "" || strings.HasPrefix p "/" then "" else "/") ++ p).
Proof.
  split.
  - unfold authorize.getFullURL.
    destruct (URL_String_scheme _ (fullURL_scheme rawurl host)) as [rest ->].
    pose proof (fullURL_scheme rawurl host) as Hs.
    destruct (url.Scheme _); [done | discriminate].
  - intros Hp p. split; [by apply fullURL_fallback|].
    unfold authorize.getFullURL. rewrite (fullURL_fallback _ _ Hp).
    rewrite URL_String_fallback; [reflexivity | | discriminate].
    intros ->. by rewrite Parse_star in Hp.
Qed.

Lemma C9_witness :
  authorize.getFullURL "%zz" "example.com" <> ""
  /\ url.Parse "%zz" = None
  /\ authorize.fullURL "%zz" "example.com"
     = url.mkURL "http" "" None "example.com" "%zz" "" false "" ""
  /\ authorize.getFullURL "%zz" "example.com" = "http://example.com/%25zz".
Proof.
  destruct (C9_getFullURL_total "%zz" "example.com") as [Hne Hfallback].
  destruct (Hfallback eq_refl) as [Hurl Htext].
  split; [exact Hne|]. split; [reflexivity|]. split; [exact Hurl|].
  rewrite Htext. reflexivity.
Defined.

(** A raw URL with an invalid escape sequence does not parse, and
    getFullURL still answers. *)
Example getFullURL_invalid_escape :
  url.Parse "%zz" = None
  /\ authorize.getFullURL "%zz" "example.com" = "http://example.com/%25zz".
Proof. split; reflexivity. Qed.

(** The scenario of the spec: raw URL "/foo?x=1", host "a.com". *)
Example getFullURL_scenario :
  authorize.getFullURL "/foo?x=1" "a.com" = "http://a.com/foo?x=1".
Proof. reflexivity. Qed.

Lemma ex_prefix_app (p x y : string) :
  (exists r, x = p ++ r) -> exists r, x ++ y = p ++ r.
Proof. intros [r ->]. exists (r ++ y). by rewrite append_assoc. Qed.

Ltac prefix_tac :=
  first [ by (exists ""; app_norm) | apply ex_prefix_app; prefix_tac ].

(** A URL with a scheme and a host, and no opaque part, is written
    scheme://userinfo@host and then the rest. *)
Lemma URL_String_host (u : url.URL) :
  url.Scheme u <> "" -> url.Opaque u = "" -> url.Host u <> "" ->
  exists rest,
    url.URL_String u
    = (url.Scheme u ++ "://"
        ++ match url.User u with
           | Some ui => url.Userinfo_String ui ++ "@"
           | None => ""
           end
        ++ url.escape (url.Host u) url.encodeHost) ++ rest.
Proof.
  intros Hs Ho Hh. apply nonEmpty_true in Hs, Hh.
  unfold url.URL_String. rewrite Hs, Hh, Ho. cbn -[Ascii.eqb].
  repeat match goal with
         | |- context [if ?b then _ else _] => destruct b
         | |- context [match ?o with Some _ => _ | None => _ end] => destruct o
         | |- context [match ?s with EmptyString => _ | String _ _ => _ end] =>
             destruct s
         end;
    prefix_tac.
Qed.

(** C6, as amended: the URL of the canonical request of a native call is
    the text of a URL value whose scheme is never empty (the scheme of the
    raw URL, http when it has none) and whose host is the host of the raw
    URL, or the request's host field when the raw URL has none; the host is
    populated whenever the host field is not empty, and the text then
    carries it unless the raw URL is opaque (a scheme followed by a
    rootless path). *)
Theorem C6_url_scheme_and_host (req : pb.IsAuthorizedRequest) :
  let rawurl := pb.RequestUrl req in
  let host := pb.RequestHost req in
  let parsed := default (url.withPath url.zero rawurl) (url.Parse rawurl) in
  let u := authorize.fullURL rawurl host in
  evaluator.URL (authorize.isAuthorizedRequest req) = url.URL_String u
  /\ url.Scheme u
     = (if String.eqb (url.Scheme parsed) "" then "http" else url.Scheme parsed)
  /\ url.Host u
     = (if String.eqb (url.Host parsed) "" then host else url.Host parsed)
  /\ url.Scheme u <> ""
  /\ (host <> "" ->
      url.Host u <> ""
      /\ (url.Opaque u = "" ->
          exists rest,
            url.URL_String u
            = (url.Scheme u ++ "://"
                 ++ match url.User u with
                    | Some ui => url.Userinfo_String ui ++ "@"
                    | None => ""
                    end
                 ++ url.escape (url.Host u) url.encodeHost) ++ rest)).
Proof.
  intros rawurl host parsed u.
  assert (Hscheme : url.Scheme u
     = (if String.eqb (url.Scheme parsed) "" then "http" else url.Scheme parsed)).
  { unfold u, parsed, authorize.fullURL.
    destruct (url.Parse rawurl) as [p|]; cbn -[String.eqb].
    - destruct (String.eqb (url.Host p) ""); cbn -[String.eqb];
        by destruct (String.eqb (url.Scheme p) "").
    - reflexivity. }
  assert (Hhost : url.Host u
     = (if String.eqb (url.Host parsed) "" then host else url.Host parsed)).
  { unfold u, parsed, authorize.fullURL.
    destruct (url.Parse rawurl) as [p|]; cbn -[String.eqb].
    - destruct (String.eqb (url.Host p) "") eqn:E; cbn -[String.eqb];
        by destruct (String.eqb (url.Scheme p) "").
    - reflexivity. }
  assert (Hhost' : host <> "" -> url.Host u <> "").
  { intros Hne. rewrite Hhost.
    by destruct (String.eqb_spec (url.Host parsed) ""). }
  repeat split; try done.
  - apply fullURL_scheme.
  - by apply Hhost'.
  - intros Ho. apply URL_String_host; [apply fullURL_scheme | done | by apply Hhost'].
Qed.

Lemma C6_witness :
  evaluator.URL (authorize.isAuthorizedRequest examples.nativeRequest)
  = "http://a.com/foo?x=1"
  /\ pb.RequestHost examples.nativeRequest <> ""
  /\ url.Host (authorize.fullURL "/foo?x=1" "a.com") = "a.com"
  /\ url.Opaque (authorize.fullURL "/foo?x=1" "a.com") = ""
  /\ exists rest,
       url.URL_String (authorize.fullURL "/foo?x=1" "a.com")
       = ("http" ++ "://" ++ "" ++ url.escape "a.com" url.encodeHost) ++ rest.
Proof.
  destruct (C6_url_scheme_and_host examples.nativeRequest)
    as (Hurl & _ & _ & _ & Hhost).
  destruct Hhost as [_ Htext]; [discriminate|].
  split; [reflexivity|]. split; [discriminate|]. split; [reflexivity|].
  split; [reflexivity|]. exact (Htext eq_refl).
Defined.

(** Counterexample to C6 as stated: a native call with raw URL "/foo" and
    an empty host field. The URL value has no host, the canonical URL is
    "http:///foo", and parsing that text back gives an empty host. *)
Lemma C6_counterexample :
  url.Host (authorize.fullURL (pb.RequestUrl examples.nativeRequestNoHost)
              (pb.RequestHost examples.nativeRequestNoHost)) = ""
  /\ evaluator.URL (authorize.isAuthorizedRequest examples.nativeRequestNoHost)
     = "http:///foo"
  /\ url.Host <$> url.Parse (evaluator.URL (authorize.isAuthorizedRequest
                                               examples.nativeRequestNoHost))
     = Some ""
  /\ ~ (url.Scheme (authorize.fullURL "/foo" "") <> ""
        /\ url.Host (authorize.fullURL "/foo" "") <> "").
Proof.
  split; [reflexivity|]. split; [reflexivity|]. split; [reflexivity|].
  intros [_ Hhost]. apply Hhost. reflexivity.
Qed.

(** An opaque raw URL keeps its text: the host field does not show. *)
Example getFullURL_opaque :
  authorize.getFullURL "mailto:joe" "a.com" = "mailto:joe".
Proof. reflexivity. Qed.

(** ** The header map of a check request *)

Section Headers.

Local Abbreviation step :=
  (fun (h : gmap string (list string)) (kv : string * string) =>
     <[http.CanonicalHeaderKey kv.1 := [kv.2]]> h).

(** The entry written last under a key is the one the map keeps. *)
Lemma headers_fold_lookup (l : list (string * string))
    (h0 : gmap string (list string)) (K k v : string) :
  (k, v) ∈ l ->
  http.CanonicalHeaderKey k = K ->
  (forall k' v', (k', v') ∈ l -> http.CanonicalHeaderKey k' = K -> v' = v) ->
  foldl step h0 l !! K = Some [v].
Proof.
  induction l as [|[k1 v1] l IH] using rev_ind; intros Hin Hk Huniq.
  - by apply elem_of_nil in Hin.
  - rewrite foldl_app. simpl.
    destruct (decide (http.CanonicalHeaderKey k1 = K)) as [Heq|Hne].
    + rewrite Heq, lookup_insert_eq.
      rewrite (Huniq k1 v1); [done | | done].
      apply elem_of_app. right. apply list_elem_of_here.
    + rewrite lookup_insert_ne by done.
      apply IH; [ | done | ].
      * apply elem_of_app in Hin as [Hin|Hin]; [done|].
        apply list_elem_of_singleton in Hin. congruence.
      * intros k' v' Hin'. apply Huniq. apply elem_of_app. by left.
Qed.

(** A key no header name canonicalises to stays out of the map. *)
Lemma headers_fold_absent (l : list (string * string))
    (h0 : gmap string (list string)) (K : string) :
  h0 !! K = None ->
  (forall k, http.CanonicalHeaderKey k <> K) ->
  foldl step h0 l !! K = None.
Proof.
  intros H0 Hne. revert h0 H0.
  induction l as [|[k1 v1] l IH]; intros h0 H0; [done|].
  simpl. apply IH. by rewrite lookup_insert_ne.
Qed.

End Headers.

(** The quick check of CanonicalMIMEHeaderKey answers with its argument or
    with what canonicalMIMEHeaderKey makes of it. *)
Lemma quickCheck_cases (s rest : string) (upper : bool) :
  textproto.quickCheck s upper rest = s
  \/ textproto.quickCheck s upper rest = textproto.canonicalMIMEHeaderKey s.
Proof.
  revert upper. induction rest as [|c rest IH]; intros upper; simpl; [by left|].
  repeat match goal with |- context [if ?b then _ else _] => destruct b end;
    auto.
Qed.

Lemma first_byte_not_lower_x (c : ascii) :
  (if true && bytes.isLower c then bytes.upper c
   else if negb true && bytes.isUpper c then bytes.lower c else c) <> "x"%char.
Proof.
  destruct c as [[] [] [] [] [] [] [] []]; vm_compute; discriminate.
Qed.

(** No header name has the canonical form "x-foo". *)
Lemma CanonicalHeaderKey_not_x_foo (k : string) :
  http.CanonicalHeaderKey k <> "x-foo".
Proof.
  unfold http.CanonicalHeaderKey, textproto.CanonicalMIMEHeaderKey. intros E.
  destruct (quickCheck_cases k k true) as [H|H]; rewrite H in E.
  - subst k. vm_compute in H. discriminate.
  - unfold textproto.canonicalMIMEHeaderKey in E.
    destruct (textproto.allValid k) eqn:Hvalid.
    + destruct k as [|c k']; [discriminate|]. simpl in E.
      injection E as Hc _. by apply first_byte_not_lower_x in Hc.
    + subst k. vm_compute in Hvalid. discriminate.
Qed.

(** C8, as amended: when the header map of a check request holds
    x-foo: bar and no other key with the canonical form X-Foo, the map
    built by getCheckRequestHeaders holds ["bar"] under the key X-Foo, in
    whatever order the entries are visited, and nothing under x-foo. *)
Theorem C8_header_canonical_key
    (mapRange : gmap string string -> list (string * string))
    (req : auth.CheckRequest) (h : auth.AttributeContext_HttpRequest) :
  mapRange (auth.Headers h) ≡ₚ map_to_list (auth.Headers h) ->
  auth.Http req = Some h ->
  auth.Headers h !! "x-foo" = Some "bar" ->
  (forall k, is_Some (auth.Headers h !! k) ->
             http.CanonicalHeaderKey k = "X-Foo" -> k = "x-foo") ->
  authorize.getCheckRequestHeaders mapRange req !! "X-Foo" = Some ["bar"]
  /\ authorize.getCheckRequestHeaders mapRange req !! "x-foo" = None.
Proof.
  intros Hperm Hh Hfoo Hothers. unfold authorize.getCheckRequestHeaders.
  rewrite Hh. split.
  - apply (headers_fold_lookup _ _ _ "x-foo").
    + rewrite Hperm. by apply elem_of_map_to_list.
    + reflexivity.
    + intros k' v' Hin Hk'. rewrite Hperm in Hin.
      apply elem_of_map_to_list in Hin.
      assert (k' = "x-foo") as -> by (apply Hothers; [by eexists | done]).
      congruence.
  - apply headers_fold_absent; [done | apply CanonicalHeaderKey_not_x_foo].
Qed.

Lemma C8_witness :
  authorize.getCheckRequestHeaders map_to_list examples.checkRequest !! "X-Foo"
  = Some ["bar"]
  /\ authorize.getCheckRequestHeaders map_to_list examples.checkRequest !! "x-foo"
     = None.
Proof.
  apply (C8_header_canonical_key map_to_list examples.checkRequest examples.httpRequest).
  - reflexivity.
  - reflexivity.
  - reflexivity.
  - intros k [v Hk] Hcanon. simpl in Hk.
    apply lookup_insert_Some in Hk as [[<- _]|[_ Hk]]; [reflexivity|].
    apply lookup_singleton_Some in Hk as [<- _]. discriminate Hcanon.
Defined.

(** Counterexample to C8 as stated: the header map holds x-foo: bar and
    also X-Foo: baz; visiting x-foo first and X-Foo last (an order Go may
    take) leaves ["baz"] under X-Foo. *)
Lemma C8_counterexample :
  auth.Http examples.checkRequestTwoCasings
  = Some (auth.mkHttpRequest "GET" {[ "x-foo" := "bar"; "X-Foo" := "baz" ]}
            "/" "a.com" "http" "")
  /\ ({[ "x-foo" := "bar"; "X-Foo" := "baz" ]} : gmap string string) !! "x-foo"
     = Some "bar"
  /\ [("x-foo", "bar"); ("X-Foo", "baz")]
     ≡ₚ map_to_list ({[ "x-foo" := "bar"; "X-Foo" := "baz" ]} : gmap string string)
  /\ authorize.getCheckRequestHeaders
       (fun _ => [("x-foo", "bar"); ("X-Foo", "baz")])
       examples.checkRequestTwoCasings !! "X-Foo"
     = Some ["baz"]
  /\ authorize.getCheckRequestHeaders
       (fun _ => [("x-foo", "bar"); ("X-Foo", "baz")])
       examples.checkRequestTwoCasings !! "X-Foo"
     <> Some ["bar"].
Proof.
  split; [reflexivity|]. split; [reflexivity|]. split; [|split].
  - vm_compute. reflexivity.
  - reflexivity.
  - vm_compute. discriminate.
Qed.

(** ** Query escaping *)

Lemma shouldEscape_space (mode : url.encoding) : url.shouldEscape " " mode = true.
Proof. by destruct mode. Qed.

Lemma escapeBytes_cons (c : ascii) (s : string) (mode : url.encoding) :
  url.escapeBytes (String c s) mode
  = if Ascii.eqb c " " && url.isQueryComponent mode then
      String "+" (url.escapeBytes s mode)
    else if url.shouldEscape c mode then
      String "%"
        (String (url.upperhex (N.shiftr (bytes.code c) 4))
           (String (url.upperhex (N.land (bytes.code c) 15))
              (url.escapeBytes s mode)))
    else String c (url.escapeBytes s mode).
Proof. reflexivity. Qed.

Lemma escapeCount_cons (c : ascii) (s : string) (mode : url.encoding) :
  url.escapeCount (String c s) mode
  = let '(spaceCount, hexCount) := url.escapeCount s mode in
    if url.shouldEscape c mode then
      if Ascii.eqb c " " && url.isQueryComponent mode
      then (S spaceCount, hexCount)
      else (spaceCount, S hexCount)
    else (spaceCount, hexCount).
Proof. reflexivity. Qed.

(** Without a byte to rewrite as %XX, the last loop of escape turns the
    spaces into '+' and leaves the rest. *)
Lemma escapeBytes_no_hex (s : string) (mode : url.encoding) :
  (url.escapeCount s mode).2 = 0 ->
  url.escapeBytes s mode = url.spacesToPlus s.
Proof.
  induction s as [|c s IH]; [reflexivity|].
  rewrite escapeCount_cons, escapeBytes_cons.
  destruct (url.escapeCount s mode) as [sc hc]. simpl in IH.
  destruct (url.shouldEscape c mode) eqn:Hesc.
  - destruct (Ascii.eqb c " " && url.isQueryComponent mode) eqn:Hsp; simpl;
      [|discriminate].
    intros Hhc. apply andb_true_iff in Hsp as [Hsp _].
    by rewrite Hsp, IH.
  - simpl. intros Hhc.
    destruct (Ascii.eqb_spec c " ") as [->|_].
    + by rewrite shouldEscape_space in Hesc.
    + simpl. by rewrite IH.
Qed.

(** Without a byte to rewrite at all, it is the identity. *)
Lemma escapeBytes_no_change (s : string) (mode : url.encoding) :
  url.escapeCount s mode = (0, 0) ->
  url.escapeBytes s mode = s.
Proof.
  induction s as [|c s IH]; [reflexivity|].
  rewrite escapeCount_cons, escapeBytes_cons.
  destruct (url.escapeCount s mode) as [sc hc].
  destruct (url.shouldEscape c mode) eqn:Hesc.
  - by destruct (Ascii.eqb c " " && url.isQueryComponent mode).
  - intros [= -> ->].
    destruct (Ascii.eqb_spec c " ") as [->|_].
    + by rewrite shouldEscape_space in Hesc.
    + simpl. by rewrite IH.
Qed.

(** escape is its last loop: the two early returns are shortcuts. *)
Lemma escape_escapeBytes (s : string) (mode : url.encoding) :
  url.escape s mode = url.escapeBytes s mode.
Proof.
  unfold url.escape.
  destruct (url.escapeCount s mode) as [sc hc] eqn:Hcount.
  destruct hc as [|hc]; [destruct sc as [|sc]|]; simpl.
  - symmetry. by apply escapeBytes_no_change.
  - symmetry. apply escapeBytes_no_hex. by rewrite Hcount.
  - by rewrite andb_false_r.
Qed.

Local Abbreviation Q := url.encodeQueryComponent.

(** What the escaping of one byte as a query component looks like, and
    what unescape reads back from it. *)
Lemma query_byte (c : ascii) :
  if Ascii.eqb c " " then True
  else if url.shouldEscape c Q then
    let h1 := url.upperhex (N.shiftr (bytes.code c) 4) in
    let h2 := url.upperhex (N.land (bytes.code c) 15) in
    url.ishex h1 = true /\ url.ishex h2 = true
    /\ ascii_of_N (N.lor (N.shiftl (url.unhex h1) 4) (url.unhex h2)) = c
    /\ bytes.oneOf h1 "&;=" = false /\ bytes.oneOf h2 "&;=" = false
  else
    Ascii.eqb c "%" = false /\ Ascii.eqb c "+" = false
    /\ bytes.oneOf c "&;=" = false.
Proof.
  destruct c as [[] [] [] [] [] [] [] []]; vm_compute; repeat split.
Qed.

Lemma unescapeScan_plus (s : string) :
  url.unescapeScan (String "+" s) Q
  = match url.unescapeScan s Q with
    | Some (n, _) => Some (n, true)
    | None => None
    end.
Proof. reflexivity. Qed.

Lemma unescapeScan_triple (h1 h2 : ascii) (s : string) :
  url.ishex h1 = true -> url.ishex h2 = true ->
  url.unescapeScan (String "%" (String h1 (String h2 s))) Q
  = match url.unescapeScan s Q with
    | Some (n, hasPlus) => Some (S n, hasPlus)
    | None => None
    end.
Proof.
  intros H1 H2.
  change (url.unescapeScan (String "%" (String h1 (String h2 s))) Q)
    with (if negb (url.ishex h1) || negb (url.ishex h2) then None
          else match url.unescapeScan s Q with
               | Some (n, hasPlus) => Some (S n, hasPlus)
               | None => None
               end).
  by rewrite H1, H2.
Qed.

Lemma unescapeScan_plain (c : ascii) (s : string) :
  Ascii.eqb c "%" = false -> Ascii.eqb c "+" = false ->
  url.unescapeScan (String c s) Q = url.unescapeScan s Q.
Proof.
  intros H1 H2.
  change (url.unescapeScan (String c s) Q)
    with (if Ascii.eqb c "%" then
            match s with
            | String h1 (String h2 s3) =>
                if negb (url.ishex h1) || negb (url.ishex h2) then None
                else match url.unescapeScan s3 Q with
                     | Some (n, hasPlus) => Some (S n, hasPlus)
                     | None => None
                     end
            | _ => None
            end
          else if Ascii.eqb c "+" then
            match url.unescapeScan s Q with
            | Some (n, _) => Some (n, true)
            | None => None
            end
          else url.unescapeScan s Q).
  by rewrite H1, H2.
Qed.

Lemma unescapeBytes_plain (c : ascii) (s : string) (mode : url.encoding) :
  Ascii.eqb c "%" = false -> Ascii.eqb c "+" = false ->
  url.unescapeBytes (String c s) mode = String c (url.unescapeBytes s mode).
Proof.
  intros H1 H2.
  change (url.unescapeBytes (String c s) mode)
    with (if Ascii.eqb c "%" then
            match s with
            | String h1 (String h2 s3) =>
                String (ascii_of_N (N.lor (N.shiftl (url.unhex h1) 4) (url.unhex h2)))
                  (url.unescapeBytes s3 mode)
            | _ => EmptyString
            end
          else if Ascii.eqb c "+" then
            String (if url.isQueryComponent mode then " "%char else "+"%char)
              (url.unescapeBytes s mode)
          else String c (url.unescapeBytes s mode)).
  by rewrite H1, H2.
Qed.

(** The scan of unescape accepts every escaped query component. *)
Lemma unescapeScan_escapeBytes (s : string) :
  exists n hasPlus, url.unescapeScan (url.escapeBytes s Q) Q = Some (n, hasPlus).
Proof.
  induction s as [|c s (n & hasPlus & IH)]; [by exists 0, false|].
  rewrite escapeBytes_cons. pose proof (query_byte c) as Hc.
  destruct (Ascii.eqb c " "); simpl andb; cbv iota.
  - rewrite unescapeScan_plus, IH. eauto.
  - destruct (url.shouldEscape c Q).
    + destruct Hc as (H1 & H2 & _).
      rewrite unescapeScan_triple, IH by done. eauto.
    + destruct Hc as (H1 & H2 & _).
      rewrite unescapeScan_plain, IH by done. eauto.
Qed.

(** The second loop of unescape reads an escaped query component back. *)
Lemma unescapeBytes_escapeBytes (s : string) :
  url.unescapeBytes (url.escapeBytes s Q) Q = s.
Proof.
  induction s as [|c s IH]; [reflexivity|].
  rewrite escapeBytes_cons. pose proof (query_byte c) as Hc.
  destruct (Ascii.eqb_spec c " ") as [->|_]; simpl andb; cbv iota.
  - change (url.unescapeBytes (String "+" (url.escapeBytes s Q)) Q)
      with (String " " (url.unescapeBytes (url.escapeBytes s Q) Q)).
    by rewrite IH.
  - destruct (url.shouldEscape c Q).
    + destruct Hc as (_ & _ & Hc & _).
      change (url.unescapeBytes (String "%" (String ?h1 (String ?h2 ?t))) Q)
        with (String (ascii_of_N (N.lor (N.shiftl (url.unhex h1) 4) (url.unhex h2)))
                (url.unescapeBytes t Q)).
      by rewrite Hc, IH.
    + destruct Hc as (H1 & H2 & _).
      by rewrite unescapeBytes_plain, IH.
Qed.

(** A string the scan finds free of '%' and of '+' to rewrite is left as
    it is by the second loop: the early return of unescape is a shortcut. *)
Lemma unescapeBytes_no_change (s : string) (mode : url.encoding) (hasPlus : bool) :
  url.unescapeScan s mode = Some (0, hasPlus) ->
  url.isQueryComponent mode = false \/ hasPlus = false ->
  url.unescapeBytes s mode = s.
Proof.
  revert hasPlus. induction s as [|c s IH]; intros hasPlus; [reflexivity|].
  simpl.
  destruct (Ascii.eqb c "%").
  - destruct s as [|h1 [|h2 s3]]; try discriminate.
    repeat match goal with |- context [if ?b then _ else _] => destruct b end;
      try discriminate.
    by destruct (url.unescapeScan s3 mode) as [[]|].
  - destruct (Ascii.eqb_spec c "+") as [->|Hne].
    + simpl.
      destruct (url.unescapeScan s mode) as [[n hp]|] eqn:Hs; [|discriminate].
      intros Heq Hq. injection Heq as -> Hhp.
      assert (Hm : url.isQueryComponent mode = false) by (destruct Hq; congruence).
      rewrite Hm. f_equal. apply (IH hp); auto.
    + destruct (Ascii.eqb c "+") eqn:Hplus.
      { by apply Ascii.eqb_eq in Hplus. }
      destruct (url.isHostOrZone mode && (bytes.code c <? 128)%N
                && url.shouldEscape c url.encodeHost); [discriminate|].
      intros Hs Hq. f_equal. by apply (IH hasPlus).
Qed.

Lemma unescape_unescapeBytes (s t : string) (mode : url.encoding) :
  url.unescape s mode = Some t -> t = url.unescapeBytes s mode.
Proof.
  unfold url.unescape.
  destruct (url.unescapeScan s mode) as [[n hasPlus]|] eqn:Hs; [|discriminate].
  destruct n as [|n]; [destruct hasPlus|]; simpl; intros [= <-]; try reflexivity.
  symmetry. apply (unescapeBytes_no_change _ _ false); auto.
Qed.

(** Round trip: QueryUnescape reads back, byte for byte, what QueryEscape
    wrote. *)
Lemma QueryUnescape_QueryEscape (s : string) :
  url.QueryUnescape (url.QueryEscape s) = Some s.
Proof.
  unfold url.QueryUnescape, url.QueryEscape. rewrite escape_escapeBytes.
  destruct (unescapeScan_escapeBytes s) as (n & hasPlus & Hscan).
  destruct (url.unescape (url.escapeBytes s Q) Q) as [t|] eqn:Hun.
  - apply unescape_unescapeBytes in Hun. by rewrite Hun, unescapeBytes_escapeBytes.
  - unfold url.unescape in Hun. rewrite Hscan in Hun.
    by destruct (Nat.eqb n 0 && negb hasPlus).
Qed.

(** ** The sign-in URL *)

(** Resolving the sign-in path against a URL keeps its scheme, user and
    host and replaces path, query and fragment. *)
Lemma ResolveReference_sign_in (u : url.URL) :
  url.URL_ResolveReference u (url.withPath url.zero "/.pomerium/sign_in")
  = url.mkURL (url.Scheme u) "" (url.User u) (url.Host u) "/.pomerium/sign_in" ""
      false "" "".
Proof. reflexivity. Qed.

Lemma IndexAny_cons_None (c : ascii) (t chars : string) :
  bytes.oneOf c chars = false ->
  strings.IndexAny t chars = None ->
  strings.IndexAny (String c t) chars = None.
Proof. intros Hc Ht. simpl. by rewrite Hc, Ht. Qed.

Lemma IndexAny_None_inv (c : ascii) (t chars : string) :
  strings.IndexAny (String c t) chars = None ->
  bytes.oneOf c chars = false /\ strings.IndexAny t chars = None.
Proof.
  simpl. destruct (bytes.oneOf c chars); [discriminate|].
  by destruct (strings.IndexAny t chars).
Qed.

(** An escaped query component holds none of the bytes that cut a query
    into pieces. *)
Lemma escapeBytes_no_separator (s : string) :
  strings.IndexAny (url.escapeBytes s Q) "&;=" = None.
Proof.
  induction s as [|c s IH]; [reflexivity|].
  rewrite escapeBytes_cons. pose proof (query_byte c) as Hc.
  destruct (Ascii.eqb c " "); simpl andb; cbv iota.
  - by apply IndexAny_cons_None.
  - destruct (url.shouldEscape c Q).
    + destruct Hc as (_ & _ & _ & H1 & H2).
      by repeat apply IndexAny_cons_None.
    + destruct Hc as (_ & _ & Hc). by apply IndexAny_cons_None.
Qed.

Lemma oneOf_separator (c : ascii) :
  bytes.oneOf c "&;=" = false ->
  bytes.oneOf c "&;" = false /\ Ascii.eqb c "=" = false.
Proof.
  simpl. intros H.
  apply orb_false_iff in H as [H1 H]. apply orb_false_iff in H as [H2 H].
  apply orb_false_iff in H as [H3 _]. by rewrite H1, H2, H3.
Qed.

Lemma fields_cons (sep : ascii -> bool) (c : ascii) (s : string) :
  strings.fields sep (String c s)
  = if sep c then EmptyString :: strings.fields sep s
    else match strings.fields sep s with
         | h :: t => String c h :: t
         | [] => [String c EmptyString]
         end.
Proof. reflexivity. Qed.

(** The pieces of a query without '&' and ';': the query itself. *)
Lemma fields_no_separator (t : string) :
  strings.IndexAny t "&;=" = None ->
  strings.fields (fun c => bytes.oneOf c "&;") t = [t].
Proof.
  induction t as [|c t IH]; [done|].
  intros H. apply IndexAny_None_inv in H as [Hc Ht].
  apply oneOf_separator in Hc as [Hc _].
  by rewrite fields_cons, Hc, (IH Ht).
Qed.

Lemma fields_key_value (k v : string) :
  strings.IndexAny k "&;=" = None ->
  strings.IndexAny v "&;=" = None ->
  strings.fields (fun c => bytes.oneOf c "&;") (k ++ "=" ++ v) = [k ++ "=" ++ v].
Proof.
  intros Hk Hv. induction k as [|c k IH].
  - rewrite append_nil_l, append_cons, append_nil_l, fields_cons.
    by rewrite (fields_no_separator v Hv).
  - apply IndexAny_None_inv in Hk as [Hc Hk].
    apply oneOf_separator in Hc as [Hc _].
    by rewrite append_cons, fields_cons, Hc, (IH Hk).
Qed.

(** Cutting key=value at the first '='. *)
Lemma cut_key_value (k v : string) :
  strings.IndexAny k "&;=" = None ->
  strings.IndexByte (k ++ "=" ++ v) "=" = Some (String.length k)
  /\ strings.take (String.length k) (k ++ "=" ++ v) = k
  /\ strings.drop (S (String.length k)) (k ++ "=" ++ v) = v.
Proof.
  intros Hk. induction k as [|c k IH]; [done|].
  apply IndexAny_None_inv in Hk as [Hc Hk].
  apply oneOf_separator in Hc as [_ Hc].
  destruct (IH Hk) as (IH1 & IH2 & IH3).
  change (strings.drop (S (String.length (String c k))) (String c k ++ "=" ++ v))
    with (strings.drop (S (String.length k)) (k ++ "=" ++ v)).
  change (strings.take (String.length (String c k)) (String c k ++ "=" ++ v))
    with (String c (strings.take (String.length k) (k ++ "=" ++ v))).
  change (strings.IndexByte (String c k ++ "=" ++ v) "=")
    with (if Ascii.eqb c "=" then Some 0
          else match strings.IndexByte (k ++ "=" ++ v) "=" with
               | Some i => Some (S i)
               | None => None
               end).
  by rewrite Hc, IH1, IH2, IH3.
Qed.

Lemma append_not_empty (k v : string) : String.eqb (k ++ "=" ++ v) "" = false.
Proof. by destruct k. Qed.

(** ParseQuery reads one escaped key=value pair back. *)
Lemma ParseQuery_pair (key value : string) :
  url.ParseQuery (url.QueryEscape key ++ "=" ++ url.QueryEscape value)
  = ({[ key := [value] ]}, true).
Proof.
  unfold url.ParseQuery, url.parseQuery.
  pose proof (QueryUnescape_QueryEscape key) as Hkey.
  pose proof (QueryUnescape_QueryEscape value) as Hvalue.
  unfold url.QueryEscape in *. rewrite !escape_escapeBytes in *.
  pose proof (escapeBytes_no_separator key) as Hk.
  pose proof (escapeBytes_no_separator value) as Hv.
  rewrite (fields_key_value _ _ Hk Hv). simpl foldl.
  unfold url.parseQueryStep. rewrite append_not_empty.
  destruct (cut_key_value _ (url.escapeBytes value Q) Hk) as (H1 & H2 & H3).
  rewrite H1. cbv beta iota. simpl in H3. rewrite H2, H3.
  unfold url.QueryUnescape in *. rewrite Hkey, Hvalue, lookup_empty. simpl.
  by rewrite insert_empty.
Qed.

(** Encode writes a map with one key and one value as key=value. *)
Lemma Values_Encode_singleton (key value : string) :
  url.Values_Encode (url.Values_Set ∅ key value)
  = url.QueryEscape key ++ "=" ++ url.QueryEscape value.
Proof.
  unfold url.Values_Encode, url.Values_Set, url.sortedKeys.
  rewrite insert_empty, map_to_list_singleton. simpl.
  by rewrite lookup_singleton_eq.
Qed.

Lemma Query_empty (u : url.URL) : url.RawQuery u = "" -> url.URL_Query u = ∅.
Proof. intros H. unfold url.URL_Query. by rewrite H. Qed.

(** The sign-in URL, field by field. *)
Lemma signInURL_fields (QueryRedirectURI : string) (u : url.URL) :
  authorize.signInURL QueryRedirectURI u
  = url.mkURL (url.Scheme u) "" (url.User u) (url.Host u) "/.pomerium/sign_in" ""
      false
      (url.QueryEscape QueryRedirectURI ++ "=" ++ url.QueryEscape (url.URL_String u))
      "".
Proof.
  unfold authorize.signInURL. rewrite ResolveReference_sign_in.
  rewrite Query_empty by reflexivity. by rewrite Values_Encode_singleton.
Qed.

Lemma length_append_cons (a b : string) (c : ascii) :
  Nat.eqb (String.length (a ++ String c b)) 0 = false.
Proof. by destruct a. Qed.

(** The text of a URL with scheme and host, without user, opaque part and
    fragment, whose escaped path starts with a slash. *)
Lemma URL_String_absolute (u : url.URL) (p : string) :
  url.Scheme u <> "" -> url.Opaque u = "" -> url.Host u <> "" ->
  url.User u = None -> url.EscapedPath u = String "/" p -> url.Fragment u = "" ->
  url.URL_String u
  = url.Scheme u ++ "://" ++ url.escape (url.Host u) url.encodeHost
      ++ String "/" p
      ++ (if url.ForceQuery u || url.nonEmpty (url.RawQuery u)
          then "?" ++ url.RawQuery u else "").
Proof.
  intros Hs Ho Hh Hu Hp Hf. apply nonEmpty_true in Hs, Hh.
  unfold url.URL_String. rewrite Hs, Ho, Hh, Hu, Hp, Hf.
  cbn -[Ascii.eqb]. rewrite Ascii.eqb_refl. cbn -[Ascii.eqb]. app_norm.
  rewrite length_append_cons.
  destruct (url.ForceQuery u || url.nonEmpty (url.RawQuery u)); by app_norm.
Qed.

(** The text of the sign-in URL for a request URL with scheme and host. *)
Lemma signInURL_text (QueryRedirectURI : string) (u : url.URL) :
  url.Scheme u <> "" -> url.Host u <> "" -> url.User u = None ->
  url.URL_String (authorize.signInURL QueryRedirectURI u)
  = url.Scheme u ++ "://" ++ url.escape (url.Host u) url.encodeHost
      ++ "/.pomerium/sign_in?" ++ url.QueryEscape QueryRedirectURI ++ "="
      ++ url.QueryEscape (url.URL_String u).
Proof.
  intros Hs Hh Hu. rewrite signInURL_fields.
  rewrite (URL_String_absolute _ ".pomerium/sign_in"); try done.
  cbn [url.Scheme url.Host url.ForceQuery url.RawQuery orb].
  unfold url.nonEmpty. rewrite append_not_empty. by app_norm.
Qed.

(** The request URL of a check request has no user part. *)
Lemma getCheckRequestURL_user (req : auth.CheckRequest) (u : url.URL) :
  authorize.getCheckRequestURL req = Some u -> url.User u = None.
Proof.
  unfold authorize.getCheckRequestURL.
  destruct (auth.Http req) as [h|]; [|discriminate].
  destruct (auth.Headers h !! "x-forwarded-proto");
    intros H; injection H as <-; reflexivity.
Qed.

Section Redirect.

Context {Encoder Store : Type}.
Variable NewHS256Signer : string -> string -> Encoder + error.
Variable NewStore : cookie.Options -> Encoder -> Store + error.
Variable LoadSession : Store -> gmap string (list string) -> string * option error.
Variable pe : evaluator.Request -> pb.IsAuthorizedReply + error.
Variable currentOptions : config.Options.
Variable QueryRedirectURI : string.
Variable mapRange : gmap string string -> list (string * string).

Local Abbreviation Check :=
  (authorize.Check NewHS256Signer NewStore LoadSession pe currentOptions
     QueryRedirectURI mapRange).

Lemma deniedUnauthenticatedRedirect_inj (a b : string) :
  authorize.deniedUnauthenticatedRedirect a
  = authorize.deniedUnauthenticatedRedirect b -> a = b.
Proof. intros H. injection H as H. exact H. Qed.

Lemma Return_inj {T : Type} (a b : T) : Return a = Return b -> a = b.
Proof. intros H. injection H as H. exact H. Qed.

(** A redirect of Check carries the text of the sign-in URL of the
    request URL. *)
Lemma Check_redirect_location req loc :
  Check req = Return (authorize.deniedUnauthenticatedRedirect loc) ->
  exists requestURL,
    authorize.getCheckRequestURL req = Some requestURL
    /\ loc = url.URL_String (authorize.signInURL QueryRedirectURI requestURL).
Proof.
  destruct (authorize.loadSessionFromCheckRequest NewHS256Signer NewStore
              LoadSession currentOptions mapRange req) as [sess sesserr] eqn:Hsess.
  destruct (authorize.getCheckRequestURL req) as [u|] eqn:Hurl.
  2:{ unfold authorize.Check. rewrite Hsess, Hurl. intros H. discriminate H. }
  rewrite (Check_unfold _ _ _ _ _ _ _ _ _ _ _ Hsess Hurl).
  destruct (pe _) as [reply|err]; [|intros H; discriminate H].
  destruct (pb.Allow reply); [intros H; discriminate H|].
  destruct sesserr as [[]|]; intros H;
    first [ apply Return_inj, deniedUnauthenticatedRedirect_inj in H; eauto
          | discriminate H ].
Qed.

End Redirect.

(** The Location of the example, parsed back: the authority of the request
    URL, and the request URL itself under the return-redirect parameter. *)
Example redirect_location_parsed :
  url.URL_String examples.requestURL = "https://a.com/a%20b?x=1&y"
  /\ (fun u => (url.Scheme u, url.Host u,
                url.Values_Get (url.URL_Query u) "pomerium_redirect_uri"))
       <$> url.Parse (url.URL_String
                        (authorize.signInURL "pomerium_redirect_uri" examples.requestURL))
     = Some ("https", "a.com", "https://a.com/a%20b?x=1&y").
Proof. split; reflexivity. Qed.

(** ** The decision mapping on the example request *)

Lemma C2_witness :
  examples.check ("", Some (Other "invalid key size")) (inl examples.allow)
    examples.checkRequest
  = Return (auth.mkCheckResponse
              (status.mkStatus (codes.int32 codes.OK) "OK")
              (auth.CheckResponse_OkResponse (auth.mkOkHttpResponse []))).
Proof.
  apply (C2_allow_is_allowed
           examples.newSigner examples.newStore
           (examples.loadSession ("", Some (Other "invalid key size")))
           (examples.evaluate (inl examples.allow)) examples.options
           "pomerium_redirect_uri" map_to_list examples.checkRequest
           "" (Some (Other "invalid key size")) examples.requestURL examples.allow);
    reflexivity.
Defined.

Lemma C3_witness :
  examples.check ("session-token", None) (inl examples.deny) examples.checkRequest
  = Return (auth.mkCheckResponse
              (status.mkStatus (codes.int32 codes.PermissionDenied) "")
              (auth.CheckResponse_DeniedResponse
                 (auth.mkDeniedHttpResponse
                    (envoy_type.mkHttpStatus envoy_type.StatusCode_Forbidden)
                    [] ""))).
Proof.
  apply (C3_deny_without_session_error_is_forbidden
           examples.newSigner examples.newStore
           (examples.loadSession ("session-token", None))
           (examples.evaluate (inl examples.deny)) examples.options
           "pomerium_redirect_uri" map_to_list examples.checkRequest
           "session-token" examples.requestURL examples.deny);
    reflexivity.
Defined.

Lemma C4_witness :
  examples.check ("", Some (Other "invalid key size")) (inl examples.deny)
    examples.checkRequest
  = Return (auth.mkCheckResponse
              (status.mkStatus (codes.int32 codes.PermissionDenied) "invalid key size")
              (auth.CheckResponse_DeniedResponse
                 (auth.mkDeniedHttpResponse
                    (envoy_type.mkHttpStatus envoy_type.StatusCode_Forbidden)
                    [] "")))
  /\ examples.check ("session-token", None) (inr (Other "context deadline exceeded"))
       examples.checkRequest
     = Fail (Other "context deadline exceeded").
Proof.
  split.
  - apply (C4_internal_errors
             examples.newSigner examples.newStore
             (examples.loadSession ("", Some (Other "invalid key size")))
             (examples.evaluate (inl examples.deny)) examples.options
             "pomerium_redirect_uri" map_to_list examples.checkRequest
             "" (Some (Other "invalid key size")) examples.requestURL
             eq_refl eq_refl)
      with (reply := examples.deny); reflexivity.
  - apply (C4_internal_errors
             examples.newSigner examples.newStore
             (examples.loadSession ("session-token", None))
             (examples.evaluate (inr (Other "context deadline exceeded")))
             examples.options
             "pomerium_redirect_uri" map_to_list examples.checkRequest
             "session-token" None examples.requestURL
             eq_refl eq_refl).
    reflexivity.
Defined.

(** Counterexample to C4 as stated: the session is fine and the evaluator
    fails (its deadline expired). Check returns that error as the error of
    the call: there is no CheckResponse, so none shaped as DeniedForbidden. *)
Lemma C4_counterexample :
  examples.check ("session-token", None) (inr (Other "context deadline exceeded"))
    examples.checkRequest
  = Fail (Other "context deadline exceeded")
  /\ ~ exists resp,
         examples.check ("session-token", None)
           (inr (Other "context deadline exceeded")) examples.checkRequest
         = Return resp.
Proof.
  split; [reflexivity|]. intros [resp H]. discriminate H.
Qed.

(** ** What each outcome of Check tells about the call *)

Section CheckOutcome.

Context {Encoder Store : Type}.
Variable NewHS256Signer : string -> string -> Encoder + error.
Variable NewStore : cookie.Options -> Encoder -> Store + error.
Variable LoadSession : Store -> gmap string (list string) -> string * option error.
Variable pe : evaluator.Request -> pb.IsAuthorizedReply + error.
Variable currentOptions : config.Options.
Variable QueryRedirectURI : string.
Variable mapRange : gmap string string -> list (string * string).

Local Abbreviation Check :=
  (authorize.Check NewHS256Signer NewStore LoadSession pe currentOptions
     QueryRedirectURI mapRange).
Local Abbreviation loadSessionFromCheckRequest :=
  (authorize.loadSessionFromCheckRequest NewHS256Signer NewStore LoadSession
     currentOptions mapRange).
Local Abbreviation checkEvaluatorRequest := (authorize.checkEvaluatorRequest mapRange).

(** Check, by cases on the HTTP attributes. *)
Lemma Check_cases req :
  (auth.Http req = None /\ Check req = Panic)
  \/ exists sess sesserr requestURL,
       loadSessionFromCheckRequest req = (sess, sesserr)
       /\ authorize.getCheckRequestURL req = Some requestURL
       /\ is_Some (auth.Http req).
Proof.
  destruct (auth.Http req) as [h|] eqn:Hh.
  - right.
    destruct (loadSessionFromCheckRequest req) as [sess sesserr] eqn:Hsess.
    exists sess, sesserr. unfold authorize.getCheckRequestURL. rewrite Hh.
    destruct (auth.Headers h !! "x-forwarded-proto"); eauto.
  - left. split; [reflexivity|]. by apply Check_without_http.
Qed.

(** X1: Check answers with status OK only when the evaluator was asked
    and allowed the request: no session result and no error path leads to
    an OK status. *)
Theorem Check_ok_only_if_allowed req resp :
  Check req = Return resp ->
  status.Code (auth.Status resp) = codes.int32 codes.OK ->
  exists sess sesserr requestURL reply,
    loadSessionFromCheckRequest req = (sess, sesserr)
    /\ authorize.getCheckRequestURL req = Some requestURL
    /\ pe (checkEvaluatorRequest req sess requestURL) = inl reply
    /\ pb.Allow reply = true
    /\ resp = authorize.allowed.
Proof.
  intros Hcheck Hcode.
  destruct (Check_cases req) as [[_ Hp]|(sess & sesserr & u & Hsess & Hurl & _)].
  { rewrite Hp in Hcheck. discriminate Hcheck. }
  rewrite (Check_unfold _ _ _ _ _ _ _ _ _ _ _ Hsess Hurl) in Hcheck.
  exists sess, sesserr, u.
  remember (url.URL_String (authorize.signInURL QueryRedirectURI u)) as to eqn:Hto.
  destruct (pe _) as [reply|err]; [|discriminate Hcheck].
  exists reply. destruct (pb.Allow reply).
  - apply Return_inj in Hcheck. by subst resp.
  - exfalso. destruct sesserr as [[]|]; apply Return_inj in Hcheck; subst resp;
      discriminate Hcode.
Qed.

(** X2: Check panics exactly on a request without HTTP attributes, and
    returns an error exactly when the evaluator, asked on the request
    built from the HTTP attributes, returns that error. *)
Theorem Check_panic_and_error req :
  (Check req = Panic <-> auth.Http req = None)
  /\ forall err,
       Check req = Fail err
       <-> exists requestURL,
             authorize.getCheckRequestURL req = Some requestURL
             /\ pe (checkEvaluatorRequest req (loadSessionFromCheckRequest req).1
                      requestURL) = inr err.
Proof.
  destruct (Check_cases req) as [[Hh Hp]|(sess & sesserr & u & Hsess & Hurl & Hh)].
  - rewrite Hp. split; [done|]. intros err. split; [intros H; discriminate H|].
    intros (u & Hurl & _). unfold authorize.getCheckRequestURL in Hurl.
    rewrite Hh in Hurl. discriminate Hurl.
  - rewrite (Check_unfold _ _ _ _ _ _ _ _ _ _ _ Hsess Hurl), Hsess. cbn [fst].
    remember (url.URL_String (authorize.signInURL QueryRedirectURI u)) as to eqn:Hto.
    split.
    + split.
      * destruct (pe _) as [reply|err]; [|intros H; discriminate H].
        destruct (pb.Allow reply); [intros H; discriminate H|].
        destruct sesserr as [[]|]; intros H; discriminate H.
      * intros Hnone. rewrite Hnone in Hh. by destruct Hh.
    + intros err. split.
      * destruct (pe _) as [reply|err'] eqn:Hpe.
        -- destruct (pb.Allow reply); [intros H; discriminate H|].
           destruct sesserr as [[]|]; intros H; discriminate H.
        -- intros H. injection H as ->. eauto.
      * intros (u' & Hurl' & Hpe). rewrite Hurl in Hurl'. injection Hurl' as <-.
        by rewrite Hpe.
Qed.

(** X3: a denial of Check tells why. Status Unauthenticated is returned
    only after a denying evaluator answer with one of the five recoverable
    session errors; status PermissionDenied only after a denying answer
    with no session error (empty message) or with another error, whose
    text is the message. *)
Theorem Check_denied_inv req resp :
  Check req = Return resp ->
  status.Code (auth.Status resp) <> codes.int32 codes.OK ->
  exists sess sesserr requestURL reply,
    loadSessionFromCheckRequest req = (sess, sesserr)
    /\ authorize.getCheckRequestURL req = Some requestURL
    /\ pe (checkEvaluatorRequest req sess requestURL) = inl reply
    /\ pb.Allow reply = false
    /\ ((status.Code (auth.Status resp) = codes.int32 codes.Unauthenticated
         /\ (exists e, sesserr = Some e
                       /\ e ∈ [ErrExpired; ErrIssuedInTheFuture; ErrMalformed;
                               ErrNoSessionFound; ErrNotValidYet])
         /\ resp = authorize.deniedUnauthenticatedRedirect
                     (url.URL_String (authorize.signInURL QueryRedirectURI requestURL)))
        \/ (status.Code (auth.Status resp) = codes.int32 codes.PermissionDenied
            /\ (sesserr = None
                \/ sesserr = Some (Other (status.Message (auth.Status resp))))
            /\ resp = authorize.deniedForbidden (status.Message (auth.Status resp))
            /\ (sesserr = None -> status.Message (auth.Status resp) = ""))).
Proof.
  intros Hcheck Hcode.
  destruct (Check_cases req) as [[_ Hp]|(sess & sesserr & u & Hsess & Hurl & _)].
  { rewrite Hp in Hcheck. discriminate Hcheck. }
  rewrite (Check_unfold _ _ _ _ _ _ _ _ _ _ _ Hsess Hurl) in Hcheck.
  exists sess, sesserr, u.
  remember (url.URL_String (authorize.signInURL QueryRedirectURI u)) as to eqn:Hto.
  destruct (pe _) as [reply|err]; [|discriminate Hcheck].
  exists reply. destruct (pb.Allow reply).
  { apply Return_inj in Hcheck. subst resp. by destruct Hcode. }
  split; [exact Hsess|]. split; [exact Hurl|]. do 2 (split; [reflexivity|]).
  destruct sesserr as [[]|]; apply Return_inj in Hcheck; subst resp.
  1-5: left; split; [reflexivity|]; split; [|reflexivity];
       eexists; split; [reflexivity|]; set_solver.
  - right. split; [reflexivity|]. split; [by right|]. split; [reflexivity|].
    intros H. discriminate H.
  - right. split; [reflexivity|]. split; [by left|]. split; reflexivity.
Qed.

End CheckOutcome.

Lemma Check_ok_only_if_allowed_witness :
  exists sess sesserr requestURL reply,
    authorize.loadSessionFromCheckRequest examples.newSigner examples.newStore
      (examples.loadSession ("", Some ErrExpired)) examples.options map_to_list
      examples.checkRequest = (sess, sesserr)
    /\ authorize.getCheckRequestURL examples.checkRequest = Some requestURL
    /\ examples.evaluate (inl examples.allow)
         (authorize.checkEvaluatorRequest map_to_list examples.checkRequest sess
            requestURL) = inl reply
    /\ pb.Allow reply = true
    /\ authorize.allowed = authorize.allowed.
Proof.
  apply (Check_ok_only_if_allowed
           examples.newSigner examples.newStore
           (examples.loadSession ("", Some ErrExpired))
           (examples.evaluate (inl examples.allow)) examples.options
           "pomerium_redirect_uri" map_to_list examples.checkRequest
           authorize.allowed); reflexivity.
Defined.

Lemma Check_denied_inv_witness :
  exists sess sesserr requestURL reply,
    authorize.loadSessionFromCheckRequest examples.newSigner examples.newStore
      (examples.loadSession ("", Some (Other "invalid key size"))) examples.options
      map_to_list examples.checkRequest = (sess, sesserr)
    /\ authorize.getCheckRequestURL examples.checkRequest = Some requestURL
    /\ examples.evaluate (inl examples.deny)
         (authorize.checkEvaluatorRequest map_to_list examples.checkRequest sess
            requestURL) = inl reply
    /\ pb.Allow reply = false
    /\ sesserr = Some (Other "invalid key size").
Proof.
  destruct (Check_denied_inv
              examples.newSigner examples.newStore
              (examples.loadSession ("", Some (Other "invalid key size")))
              (examples.evaluate (inl examples.deny)) examples.options
              "pomerium_redirect_uri" map_to_list examples.checkRequest
              (authorize.deniedForbidden "invalid key size") eq_refl)
    as (sess & sesserr & u & reply & Hsess & Hurl & Hpe & Hdeny & _).
  - discriminate.
  - exists sess, sesserr, u, reply. repeat (split; [assumption|]).
    vm_compute in Hsess. congruence.
Defined.

(** ** Canonical header keys *)

Lemma append_cons_assoc (pre : string) (c : ascii) (rest : string) :
  pre ++ String c rest = (pre ++ String c "") ++ rest.
Proof. by rewrite append_assoc, append_cons, append_nil_l. Qed.

Lemma allValid_app (a b : string) :
  textproto.allValid (a ++ b) = textproto.allValid a && textproto.allValid b.
Proof.
  induction a as [|c a IH]; [reflexivity|].
  rewrite append_cons. simpl. by rewrite IH, andb_assoc.
Qed.

Lemma canonicalize_cons (upper : bool) (c : ascii) (a : string) :
  textproto.canonicalize upper (String c a)
  = let c' := if upper && bytes.isLower c then bytes.upper c
              else if negb upper && bytes.isUpper c then bytes.lower c
              else c in
    String c' (textproto.canonicalize (Ascii.eqb c' "-") a).
Proof. reflexivity. Qed.

(** The quick check of CanonicalMIMEHeaderKey is a shortcut: on a key whose
    part already read is in canonical form it answers as
    canonicalMIMEHeaderKey does. *)
Lemma quickCheck_spec (pre rest : string) (upper : bool) :
  textproto.allValid pre = true ->
  (forall r, textproto.canonicalize true (pre ++ r)
             = pre ++ textproto.canonicalize upper r) ->
  textproto.quickCheck (pre ++ rest) upper rest
  = textproto.canonicalMIMEHeaderKey (pre ++ rest).
Proof.
  revert pre upper. induction rest as [|c rest IH]; intros pre upper Hvalid Hpre.
  - simpl. unfold textproto.canonicalMIMEHeaderKey.
    rewrite append_nil_r, Hvalid.
    specialize (Hpre ""). simpl in Hpre. rewrite !append_nil_r in Hpre.
    by rewrite Hpre.
  - simpl textproto.quickCheck.
    destruct (textproto.validHeaderFieldByte c) eqn:Hc; simpl negb; cbv iota.
    + destruct (upper && bytes.isLower c) eqn:H1; [reflexivity|].
      destruct (negb upper && bytes.isUpper c) eqn:H2; [reflexivity|].
      rewrite append_cons_assoc. apply IH.
      * rewrite allValid_app, Hvalid. simpl. by rewrite Hc.
      * intros r. rewrite <- append_cons_assoc, Hpre, canonicalize_cons.
        cbv zeta. rewrite H1, H2. by rewrite <- append_cons_assoc.
    + unfold textproto.canonicalMIMEHeaderKey.
      rewrite allValid_app. simpl. by rewrite Hc, andb_false_r.
Qed.

Lemma CanonicalHeaderKey_spec (s : string) :
  http.CanonicalHeaderKey s = textproto.canonicalMIMEHeaderKey s.
Proof.
  unfold http.CanonicalHeaderKey, textproto.CanonicalMIMEHeaderKey.
  apply (quickCheck_spec "" s true); [reflexivity|]. intros r. reflexivity.
Qed.

Lemma canonical_byte (upper : bool) (c : ascii) :
  let c' := if upper && bytes.isLower c then bytes.upper c
            else if negb upper && bytes.isUpper c then bytes.lower c
            else c in
  (if upper && bytes.isLower c' then bytes.upper c'
   else if negb upper && bytes.isUpper c' then bytes.lower c'
   else c') = c'
  /\ (textproto.validHeaderFieldByte c = true ->
      textproto.validHeaderFieldByte c' = true).
Proof.
  destruct upper; destruct c as [[] [] [] [] [] [] [] []]; vm_compute; auto.
Qed.

Lemma canonicalize_idem (upper : bool) (s : string) :
  textproto.canonicalize upper (textproto.canonicalize upper s)
  = textproto.canonicalize upper s.
Proof.
  revert upper. induction s as [|c s IH]; intros upper; [reflexivity|].
  rewrite !canonicalize_cons. cbv zeta.
  destruct (canonical_byte upper c) as [-> _]. by rewrite IH.
Qed.

Lemma canonicalize_valid (upper : bool) (s : string) :
  textproto.allValid s = true ->
  textproto.allValid (textproto.canonicalize upper s) = true.
Proof.
  revert upper. induction s as [|c s IH]; intros upper; [reflexivity|].
  rewrite canonicalize_cons. cbv zeta. simpl. intros H.
  apply andb_true_iff in H as [Hc Hs].
  destruct (canonical_byte upper c) as [_ Hv]. by rewrite (Hv Hc), IH.
Qed.

(** Canonical header keys are fixed points of CanonicalHeaderKey. *)
Lemma CanonicalHeaderKey_idem (s : string) :
  http.CanonicalHeaderKey (http.CanonicalHeaderKey s) = http.CanonicalHeaderKey s.
Proof.
  rewrite !CanonicalHeaderKey_spec. unfold textproto.canonicalMIMEHeaderKey.
  destruct (textproto.allValid s) eqn:Hs.
  - by rewrite canonicalize_valid, canonicalize_idem.
  - by rewrite Hs.
Qed.

(** ** The header map of a check request, entry by entry *)

Section HeaderEntries.

Local Abbreviation step :=
  (fun (h : gmap string (list string)) (kv : string * string) =>
     <[http.CanonicalHeaderKey kv.1 := [kv.2]]> h).

Lemma headers_fold_sound (l : list (string * string))
    (h0 : gmap string (list string)) (K : string) (vs : list string) :
  foldl step h0 l !! K = Some vs ->
  h0 !! K = Some vs
  \/ exists k v, (k, v) ∈ l /\ http.CanonicalHeaderKey k = K /\ vs = [v].
Proof.
  induction l as [|[k1 v1] l IH] using rev_ind; [by left|].
  rewrite foldl_app. simpl.
  destruct (decide (http.CanonicalHeaderKey k1 = K)) as [Heq|Hne].
  - rewrite Heq, lookup_insert_eq. intros [= <-]. right. exists k1, v1.
    split; [|done]. apply elem_of_app. right. apply list_elem_of_here.
  - rewrite lookup_insert_ne by done. intros H.
    destruct (IH H) as [?|(k & v & Hin & ? & ?)]; [by left|].
    right. exists k, v. split; [|done]. apply elem_of_app. by left.
Qed.

Lemma headers_fold_complete (l : list (string * string))
    (h0 : gmap string (list string)) (k v : string) :
  (k, v) ∈ l -> is_Some (foldl step h0 l !! http.CanonicalHeaderKey k).
Proof.
  induction l as [|[k1 v1] l IH] using rev_ind; intros Hin.
  - by apply elem_of_nil in Hin.
  - rewrite foldl_app. simpl.
    destruct (decide (http.CanonicalHeaderKey k1 = http.CanonicalHeaderKey k))
      as [Heq|Hne].
    + rewrite Heq, lookup_insert_eq. by eexists.
    + rewrite lookup_insert_ne by done. apply IH.
      apply elem_of_app in Hin as [Hin|Hin]; [done|].
      apply list_elem_of_singleton in Hin. congruence.
Qed.

End HeaderEntries.

(** X4: every entry of the map built by getCheckRequestHeaders comes from
    an entry of the request's header map: its key is the canonical form of
    that entry's key, and is itself in canonical form, and its value is the
    one-element sequence of that entry's value. *)
Theorem getCheckRequestHeaders_sound
    (mapRange : gmap string string -> list (string * string))
    (req : auth.CheckRequest) (K : string) (vs : list string) :
  (forall h, auth.Http req = Some h ->
             mapRange (auth.Headers h) ≡ₚ map_to_list (auth.Headers h)) ->
  authorize.getCheckRequestHeaders mapRange req !! K = Some vs ->
  exists h k v,
    auth.Http req = Some h
    /\ auth.Headers h !! k = Some v
    /\ http.CanonicalHeaderKey k = K
    /\ vs = [v]
    /\ http.CanonicalHeaderKey K = K.
Proof.
  intros Hperm. unfold authorize.getCheckRequestHeaders.
  destruct (auth.Http req) as [h|]; [|by rewrite lookup_empty].
  intros Hlook. apply headers_fold_sound in Hlook as [Hlook|(k & v & Hin & Hk & ->)].
  { by rewrite lookup_empty in Hlook. }
  exists h, k, v. rewrite (Hperm h eq_refl) in Hin.
  apply elem_of_map_to_list in Hin. subst K.
  by rewrite CanonicalHeaderKey_idem.
Qed.

(** X5: every header of the request shows in the map built by
    getCheckRequestHeaders: the canonical form of its key is a key of the
    map. *)
Theorem getCheckRequestHeaders_complete
    (mapRange : gmap string string -> list (string * string))
    (req : auth.CheckRequest) (h : auth.AttributeContext_HttpRequest)
    (k v : string) :
  mapRange (auth.Headers h) ≡ₚ map_to_list (auth.Headers h) ->
  auth.Http req = Some h ->
  auth.Headers h !! k = Some v ->
  is_Some (authorize.getCheckRequestHeaders mapRange req
             !! http.CanonicalHeaderKey k).
Proof.
  intros Hperm Hh Hk. unfold authorize.getCheckRequestHeaders. rewrite Hh.
  apply (headers_fold_complete _ _ k v). rewrite Hperm.
  by apply elem_of_map_to_list.
Qed.

(** The entries of the header map built from a request whose keys have
    distinct canonical forms, and the map for two orders of ranging. *)
Lemma headers_lookup_any_order
    (mapRange : gmap string string -> list (string * string))
    (req : auth.CheckRequest) (h : auth.AttributeContext_HttpRequest) :
  mapRange (auth.Headers h) ≡ₚ map_to_list (auth.Headers h) ->
  auth.Http req = Some h ->
  (forall k1 k2, is_Some (auth.Headers h !! k1) -> is_Some (auth.Headers h !! k2) ->
                 http.CanonicalHeaderKey k1 = http.CanonicalHeaderKey k2 -> k1 = k2) ->
  forall k v, auth.Headers h !! k = Some v ->
              authorize.getCheckRequestHeaders mapRange req
                !! http.CanonicalHeaderKey k = Some [v].
Proof.
  intros Hperm Hh Hinj k v Hk. unfold authorize.getCheckRequestHeaders.
  rewrite Hh. apply (headers_fold_lookup _ _ _ k).
  - rewrite Hperm. by apply elem_of_map_to_list.
  - reflexivity.
  - intros k' v' Hin Hcanon. rewrite Hperm in Hin.
    apply elem_of_map_to_list in Hin.
    assert (k' = k) as -> by (apply Hinj; [by eexists | by eexists | done]).
    congruence.
Qed.

Lemma headers_entries_any_order
    (mapRange : gmap string string -> list (string * string))
    (req : auth.CheckRequest) (h : auth.AttributeContext_HttpRequest)
    (K : string) (vs : list string) :
  mapRange (auth.Headers h) ≡ₚ map_to_list (auth.Headers h) ->
  auth.Http req = Some h ->
  authorize.getCheckRequestHeaders mapRange req !! K = Some vs ->
  exists k v, auth.Headers h !! k = Some v
              /\ http.CanonicalHeaderKey k = K /\ vs = [v].
Proof.
  intros Hperm Hh. unfold authorize.getCheckRequestHeaders. rewrite Hh.
  intros Hlook. apply headers_fold_sound in Hlook as [Hlook|(k & v & Hin & Hk & ->)].
  { by rewrite lookup_empty in Hlook. }
  exists k, v. rewrite Hperm in Hin. by apply elem_of_map_to_list in Hin.
Qed.

Lemma headers_equal_any_order
    (mapRange1 mapRange2 : gmap string string -> list (string * string))
    (req : auth.CheckRequest) (h : auth.AttributeContext_HttpRequest) :
  mapRange1 (auth.Headers h) ≡ₚ map_to_list (auth.Headers h) ->
  mapRange2 (auth.Headers h) ≡ₚ map_to_list (auth.Headers h) ->
  auth.Http req = Some h ->
  (forall k1 k2, is_Some (auth.Headers h !! k1) -> is_Some (auth.Headers h !! k2) ->
                 http.CanonicalHeaderKey k1 = http.CanonicalHeaderKey k2 -> k1 = k2) ->
  authorize.getCheckRequestHeaders mapRange1 req
  = authorize.getCheckRequestHeaders mapRange2 req.
Proof.
  intros Hperm1 Hperm2 Hh Hinj. apply map_eq. intros K.
  destruct (authorize.getCheckRequestHeaders mapRange1 req !! K) as [vs|] eqn:H1.
  - apply (headers_entries_any_order _ _ h _ _ Hperm1 Hh) in H1
        as (k & v & Hk & <- & ->).
    symmetry. by apply (headers_lookup_any_order _ _ h).
  - destruct (authorize.getCheckRequestHeaders mapRange2 req !! K) as [vs|] eqn:H2;
      [|reflexivity].
    apply (headers_entries_any_order _ _ h _ _ Hperm2 Hh) in H2
        as (k & v & Hk & <- & ->).
    by rewrite (headers_lookup_any_order _ _ h Hperm1 Hh Hinj k v Hk) in H1.
Qed.

(** X6: when no two keys of the request's header map have the same
    canonical form, the map built by getCheckRequestHeaders does not depend
    on the order in which Go ranges over the header map, and it holds the
    one-element sequence of each header's value under the canonical form of
    its key. *)
Theorem getCheckRequestHeaders_order_independent
    (mapRange1 mapRange2 : gmap string string -> list (string * string))
    (req : auth.CheckRequest) (h : auth.AttributeContext_HttpRequest) :
  mapRange1 (auth.Headers h) ≡ₚ map_to_list (auth.Headers h) ->
  mapRange2 (auth.Headers h) ≡ₚ map_to_list (auth.Headers h) ->
  auth.Http req = Some h ->
  (forall k1 k2, is_Some (auth.Headers h !! k1) -> is_Some (auth.Headers h !! k2) ->
                 http.CanonicalHeaderKey k1 = http.CanonicalHeaderKey k2 -> k1 = k2) ->
  (forall k v, auth.Headers h !! k = Some v ->
               authorize.getCheckRequestHeaders mapRange1 req
                 !! http.CanonicalHeaderKey k = Some [v])
  /\ authorize.getCheckRequestHeaders mapRange1 req
     = authorize.getCheckRequestHeaders mapRange2 req.
Proof.
  intros Hperm1 Hperm2 Hh Hinj. split.
  - by apply (headers_lookup_any_order _ _ h).
  - by apply (headers_equal_any_order _ _ _ h).
Qed.

Lemma getCheckRequestHeaders_sound_witness :
  exists h k v,
    auth.Http examples.checkRequest = Some h
    /\ auth.Headers h !! k = Some v
    /\ http.CanonicalHeaderKey k = "X-Foo"
    /\ ["bar"] = [v]
    /\ http.CanonicalHeaderKey "X-Foo" = "X-Foo".
Proof.
  apply (getCheckRequestHeaders_sound map_to_list examples.checkRequest "X-Foo" ["bar"]).
  - intros h _. reflexivity.
  - reflexivity.
Defined.

Lemma getCheckRequestHeaders_complete_witness :
  is_Some (authorize.getCheckRequestHeaders map_to_list examples.checkRequest
             !! http.CanonicalHeaderKey "x-forwarded-proto").
Proof.
  apply (getCheckRequestHeaders_complete map_to_list examples.checkRequest
           examples.httpRequest "x-forwarded-proto" "https"); reflexivity.
Defined.

Lemma getCheckRequestHeaders_order_independent_witness :
  (forall k v, auth.Headers examples.httpRequest !! k = Some v ->
               authorize.getCheckRequestHeaders map_to_list examples.checkRequest
                 !! http.CanonicalHeaderKey k = Some [v])
  /\ authorize.getCheckRequestHeaders map_to_list examples.checkRequest
     = authorize.getCheckRequestHeaders (fun m => reverse (map_to_list m))
         examples.checkRequest.
Proof.
  apply (getCheckRequestHeaders_order_independent
           map_to_list (fun m => reverse (map_to_list m))
           examples.checkRequest examples.httpRequest).
  - reflexivity.
  - apply reverse_Permutation.
  - reflexivity.
  - intros k1 k2 [v1 H1] [v2 H2] Hcanon. simpl in H1, H2.
    apply lookup_insert_Some in H1 as [[<- _]|[_ H1]];
      apply lookup_insert_Some in H2 as [[<- _]|[_ H2]];
      try apply lookup_singleton_Some in H1 as [<- _];
      try apply lookup_singleton_Some in H2 as [<- _];
      first [reflexivity | discriminate Hcanon].
Defined.

(** ** The native call *)

(** X7: cloneHeaders returns a map with the keys and the value sequences
    of its argument: the canonical request of a native call carries the
    caller's headers unchanged. *)
Theorem cloneHeaders_copy (h : gmap string (list string)) :
  authorize.cloneHeaders h = h
  /\ forall req, evaluator.Header (authorize.isAuthorizedRequest req)
                 = pb.RequestHeaders req.
Proof.
  assert (Hcopy : forall m : gmap string (list string), authorize.cloneHeaders m = m).
  { intros m. unfold authorize.cloneHeaders. apply map_eq. intros k.
    rewrite lookup_fmap. destruct (m !! k) as [values|]; [|reflexivity].
    simpl. by rewrite firstn_all. }
  split; [apply Hcopy|]. intros req. apply Hcopy.
Qed.

(** X8: a raw URL that parses with a host keeps it: getFullURL gives the
    text of the parsed URL, with scheme http if it has none, whatever the
    host argument is. *)
Theorem getFullURL_keeps_host (rawurl : string) (p : url.URL) :
  url.Parse rawurl = Some p ->
  url.Host p <> "" ->
  forall host,
    authorize.getFullURL rawurl host
    = url.URL_String (if String.eqb (url.Scheme p) "" then url.withScheme p "http"
                      else p).
Proof.
  intros Hparse Hhost host. unfold authorize.getFullURL, authorize.fullURL.
  rewrite Hparse. by destruct (String.eqb_spec (url.Host p) "").
Qed.

Lemma getFullURL_keeps_host_witness :
  authorize.getFullURL "//b.org/x%20y?q=1" "a.com" = "http://b.org/x%20y?q=1"
  /\ authorize.getFullURL "//b.org/x%20y?q=1" "" = "http://b.org/x%20y?q=1".
Proof.
  split.
  - rewrite (getFullURL_keeps_host "//b.org/x%20y?q=1"
               (url.mkURL "" "" None "b.org" "/x y" "" false "q=1" ""));
      [reflexivity | reflexivity | discriminate].
  - rewrite (getFullURL_keeps_host "//b.org/x%20y?q=1"
               (url.mkURL "" "" None "b.org" "/x y" "" false "q=1" ""));
      [reflexivity | reflexivity | discriminate].
Defined.

(** ** The text of the request URL of a check request *)

Lemma escape_path_slash (p : string) :
  url.escape (String "/" p) url.encodePath = String "/" (url.escape p url.encodePath).
Proof. by rewrite !escape_escapeBytes. Qed.

(** X9: for a check request with a host, a path that starts with a slash
    and a scheme (the forwarded protocol when the header is there, the
    scheme of the attributes otherwise), the text of the request URL, which
    Check hands to the evaluator as URL and RequestURI, is scheme://host,
    the path with its bytes escaped, and, when the query is not empty, a
    question mark and the query as it came. *)
Theorem getCheckRequestURL_text (req : auth.CheckRequest)
    (h : auth.AttributeContext_HttpRequest) (path : string) :
  auth.Http req = Some h ->
  auth.Path h = String "/" path ->
  auth.Host h <> "" ->
  default (auth.Scheme h) (auth.Headers h !! "x-forwarded-proto") <> "" ->
  exists u,
    authorize.getCheckRequestURL req = Some u
    /\ url.URL_String u
       = default (auth.Scheme h) (auth.Headers h !! "x-forwarded-proto")
           ++ "://" ++ url.escape (auth.Host h) url.encodeHost
           ++ "/" ++ url.escape path url.encodePath
           ++ (if url.nonEmpty (auth.Query h) then "?" ++ auth.Query h else "").
Proof.
  intros Hh Hpath Hhost Hscheme. unfold authorize.getCheckRequestURL. rewrite Hh.
  set (u := url.mkURL (auth.Scheme h) "" None (auth.Host h) (auth.Path h) ""
              false (auth.Query h) "").
  assert (Htext : forall s, s <> "" ->
            url.URL_String (url.withScheme u s)
            = s ++ "://" ++ url.escape (auth.Host h) url.encodeHost
                ++ "/" ++ url.escape path url.encodePath
                ++ (if url.nonEmpty (auth.Query h) then "?" ++ auth.Query h else "")).
  { intros s Hs.
    rewrite (URL_String_absolute _ (url.escape path url.encodePath));
      try done.
    unfold url.EscapedPath. cbn [url.withScheme u url.RawPath url.Path url.nonEmpty
                                   String.eqb negb andb].
    rewrite Hpath. cbn [String.eqb Ascii.eqb Bool.eqb]. apply escape_path_slash. }
  destruct (auth.Headers h !! "x-forwarded-proto") as [fwdProto|]; simpl in Hscheme |- *.
  - eexists. split; [reflexivity|]. by apply Htext.
  - exists u. split; [reflexivity|].
    rewrite <- (Htext (auth.Scheme h) Hscheme). by destruct h.
Qed.

Lemma getCheckRequestURL_text_witness :
  exists u,
    authorize.getCheckRequestURL examples.checkRequest = Some u
    /\ url.URL_String u = "https://a.com/a%20b?x=1&y".
Proof.
  destruct (getCheckRequestURL_text examples.checkRequest examples.httpRequest "a b")
    as (u & Hurl & Htext); [reflexivity | reflexivity | discriminate | discriminate |].
  exists u. split; [exact Hurl|]. rewrite Htext. reflexivity.
Defined.

(** X10: the forwarded protocol is taken as it comes. An empty
    x-forwarded-proto header erases the scheme of the attributes: the
    request URL has no scheme and, with a host, its text starts with the
    two slashes of the authority. *)
Theorem getCheckRequestURL_empty_forwarded_proto (req : auth.CheckRequest)
    (h : auth.AttributeContext_HttpRequest) :
  auth.Http req = Some h ->
  auth.Headers h !! "x-forwarded-proto" = Some "" ->
  auth.Host h <> "" ->
  exists u rest,
    authorize.getCheckRequestURL req = Some u
    /\ url.Scheme u = ""
    /\ url.URL_String u = "//" ++ url.escape (auth.Host h) url.encodeHost ++ rest.
Proof.
  intros Hh Hfwd Hhost. unfold authorize.getCheckRequestURL. rewrite Hh, Hfwd.
  eexists. 
  assert (Hex : exists rest,
    url.URL_String
      (url.withScheme
         (url.mkURL (auth.Scheme h) "" None (auth.Host h) (auth.Path h) "" false
            (auth.Query h) "") "")
    = ("//" ++ url.escape (auth.Host h) url.encodeHost) ++ rest).
  { apply nonEmpty_true in Hhost. unfold url.URL_String.
    cbn [url.withScheme url.Scheme url.Opaque url.User url.Host url.Path
         url.ForceQuery url.RawQuery url.Fragment url.nonEmpty String.eqb negb orb].
    fold (url.nonEmpty (auth.Host h)). rewrite Hhost. cbn [orb bool_decide].
    repeat match goal with
           | |- context [if ?b then _ else _] => destruct b
           | |- context [match ?o with Some _ => _ | None => _ end] => destruct o
           | |- context [match ?s with EmptyString => _ | String _ _ => _ end] =>
               destruct s
           end;
      prefix_tac. }
  destruct Hex as [rest Hrest]. exists rest. split; [reflexivity|].
  split; [reflexivity|]. rewrite Hrest. by rewrite append_assoc.
Qed.

Lemma getCheckRequestURL_empty_forwarded_proto_witness :
  exists u rest,
    authorize.getCheckRequestURL
      (auth.mkCheckRequest
         (Some (auth.mkHttpRequest "GET" {[ "x-forwarded-proto" := "" ]}
                  "/p" "a.com" "http" ""))
         "10.0.0.7:4711") = Some u
    /\ url.Scheme u = ""
    /\ url.URL_String u = "//" ++ url.escape "a.com" url.encodeHost ++ rest.
Proof.
  apply (getCheckRequestURL_empty_forwarded_proto
           (auth.mkCheckRequest
              (Some (auth.mkHttpRequest "GET" {[ "x-forwarded-proto" := "" ]}
                       "/p" "a.com" "http" ""))
              "10.0.0.7:4711")
           (auth.mkHttpRequest "GET" {[ "x-forwarded-proto" := "" ]}
              "/p" "a.com" "http" ""));
    [reflexivity | reflexivity | discriminate].
Defined.

(** ** Parsing a URL with scheme, authority and path *)

Lemma IndexByte_None_HasSuffixByte (s : string) (c : ascii) :
  strings.IndexByte s c = None -> strings.HasSuffixByte s c = false.
Proof.
  unfold strings.HasSuffixByte. induction s as [|d s IH]; [reflexivity|].
  simpl. destruct (Ascii.eqb d c) eqn:Hd; [discriminate|].
  destruct (strings.IndexByte s c); [discriminate|]. intros _.
  destruct s as [|e s]; [by rewrite Hd|]. by apply IH.
Qed.

(** parse, on a text without control byte and without '?', made of a
    scheme, two slashes, an authority and a path. *)
Lemma parse_scheme_authority_path
    (text scheme rest authority path host : string)
    (user : option url.Userinfo) (u : url.URL) :
  url.stringContainsCTLByte text = false ->
  String.eqb text "*" = false ->
  url.getscheme text = Some (scheme, rest) ->
  strings.ToLower scheme <> "" ->
  strings.IndexByte rest "?" = None ->
  strings.HasPrefix rest "//" = true ->
  url.split (strings.drop 2 rest) "/" false = (authority, path) ->
  url.parseAuthority authority = Some (user, host) ->
  url.setPath
    (url.withHost
       (url.withUser (url.withRawQuery (url.withScheme url.zero (strings.ToLower scheme)) "")
          user) host) path = Some u ->
  url.parse text false = Some u.
Proof.
  intros Hctl Hstar Hscheme Hne Hq Hslashes Hsplit Hauth Hpath.
  unfold url.parse. rewrite Hctl, Hstar, andb_false_r, Hscheme.
  cbn [mbind option_bind].
  rewrite (IndexByte_None_HasSuffixByte _ _ Hq). cbn [andb].
  unfold url.split at 1. rewrite Hq.
  assert (Hslash : strings.HasPrefix rest "/" = true).
  { destruct rest as [|c rest]; [discriminate|]. simpl in Hslashes |- *.
    apply andb_true_iff in Hslashes as [-> _]. reflexivity. }
  apply nonEmpty_true in Hne.
  rewrite Hslash. cbn [negb andb url.Scheme url.withRawQuery url.withScheme].
  rewrite Hne, Hslashes. cbn [orb andb]. rewrite Hsplit, Hauth.
  cbn [mbind option_bind]. exact Hpath.
Qed.

(** ** Path escaping *)

Local Abbreviation P := url.encodePath.

Lemma path_byte (c : ascii) :
  if url.shouldEscape c P then
    let h1 := url.upperhex (N.shiftr (bytes.code c) 4) in
    let h2 := url.upperhex (N.land (bytes.code c) 15) in
    url.ishex h1 = true /\ url.ishex h2 = true
    /\ ascii_of_N (N.lor (N.shiftl (url.unhex h1) 4) (url.unhex h2)) = c
    /\ bytes.oneOf h1 "#?" = false /\ bytes.oneOf h2 "#?" = false
    /\ url.stringContainsCTLByte (String h1 (String h2 "")) = false
  else
    Ascii.eqb c "%" = false /\ bytes.oneOf c "#?" = false
    /\ url.stringContainsCTLByte (String c "") = false.
Proof.
  destruct c as [[] [] [] [] [] [] [] []]; vm_compute; repeat split.
Qed.

Lemma escapeBytes_path_cons (c : ascii) (s : string) :
  url.escapeBytes (String c s) P
  = if url.shouldEscape c P then
      String "%"
        (String (url.upperhex (N.shiftr (bytes.code c) 4))
           (String (url.upperhex (N.land (bytes.code c) 15))
              (url.escapeBytes s P)))
    else String c (url.escapeBytes s P).
Proof. rewrite escapeBytes_cons. by rewrite andb_false_r. Qed.

Lemma stringContainsCTLByte_cons (c : ascii) (s : string) :
  url.stringContainsCTLByte (String c s)
  = url.stringContainsCTLByte (String c "") || url.stringContainsCTLByte s.
Proof.
  cbn [url.stringContainsCTLByte].
  by destruct ((bytes.code c <? bytes.code " ")%N || (bytes.code c =? 127)%N).
Qed.

Lemma stringContainsCTLByte_triple (a b : ascii) (t : string) :
  url.stringContainsCTLByte (String "%" (String a (String b t)))
  = url.stringContainsCTLByte (String a (String b "")) || url.stringContainsCTLByte t.
Proof.
  rewrite (stringContainsCTLByte_cons "%").
  rewrite (stringContainsCTLByte_cons a (String b t)).
  rewrite (stringContainsCTLByte_cons b t).
  rewrite (stringContainsCTLByte_cons a (String b "")).
  change (url.stringContainsCTLByte "%") with false.
  by rewrite orb_false_l, orb_assoc.
Qed.

(** An escaped path holds no control byte, no '#' and no '?'. *)
Lemma escapeBytes_path_safe (s : string) :
  url.stringContainsCTLByte (url.escapeBytes s P) = false
  /\ strings.IndexAny (url.escapeBytes s P) "#?" = None.
Proof.
  induction s as [|c s [IH1 IH2]]; [done|].
  rewrite escapeBytes_path_cons. pose proof (path_byte c) as Hc.
  destruct (url.shouldEscape c P).
  - destruct Hc as (_ & _ & _ & H1 & H2 & Hctl). split.
    + rewrite stringContainsCTLByte_triple, Hctl, IH1. reflexivity.
    + by repeat apply IndexAny_cons_None.
  - destruct Hc as (_ & H1 & Hctl). split.
    + by rewrite stringContainsCTLByte_cons, Hctl, IH1.
    + by apply IndexAny_cons_None.
Qed.

Lemma unescapeScan_path_triple (h1 h2 : ascii) (s : string) :
  url.ishex h1 = true -> url.ishex h2 = true ->
  url.unescapeScan (String "%" (String h1 (String h2 s))) P
  = match url.unescapeScan s P with
    | Some (n, hasPlus) => Some (S n, hasPlus)
    | None => None
    end.
Proof.
  intros H1 H2.
  change (url.unescapeScan (String "%" (String h1 (String h2 s))) P)
    with (if negb (url.ishex h1) || negb (url.ishex h2) then None
          else match url.unescapeScan s P with
               | Some (n, hasPlus) => Some (S n, hasPlus)
               | None => None
               end).
  by rewrite H1, H2.
Qed.

Lemma unescapeScan_path_plain (c : ascii) (s : string) :
  Ascii.eqb c "%" = false ->
  url.unescapeScan (String c s) P
  = if Ascii.eqb c "+" then
      match url.unescapeScan s P with
      | Some (n, _) => Some (n, false)
      | None => None
      end
    else url.unescapeScan s P.
Proof.
  intros H1.
  change (url.unescapeScan (String c s) P)
    with (if Ascii.eqb c "%" then
            match s with
            | String h1 (String h2 s3) =>
                if negb (url.ishex h1) || negb (url.ishex h2) then None
                else match url.unescapeScan s3 P with
                     | Some (n, hasPlus) => Some (S n, hasPlus)
                     | None => None
                     end
            | _ => None
            end
          else if Ascii.eqb c "+" then
            match url.unescapeScan s P with
            | Some (n, _) => Some (n, false)
            | None => None
            end
          else url.unescapeScan s P).
  by rewrite H1.
Qed.

Lemma unescapeBytes_path_plain (c : ascii) (s : string) :
  Ascii.eqb c "%" = false ->
  url.unescapeBytes (String c s) P = String c (url.unescapeBytes s P).
Proof.
  intros H1.
  change (url.unescapeBytes (String c s) P)
    with (if Ascii.eqb c "%" then
            match s with
            | String h1 (String h2 s3) =>
                String (ascii_of_N (N.lor (N.shiftl (url.unhex h1) 4) (url.unhex h2)))
                  (url.unescapeBytes s3 P)
            | _ => EmptyString
            end
          else if Ascii.eqb c "+" then
            String "+" (url.unescapeBytes s P)
          else String c (url.unescapeBytes s P)).
  rewrite H1. destruct (Ascii.eqb_spec c "+") as [->|_]; reflexivity.
Qed.

Lemma unescapeScan_escapeBytes_path (s : string) :
  exists n hasPlus, url.unescapeScan (url.escapeBytes s P) P = Some (n, hasPlus).
Proof.
  induction s as [|c s (n & hasPlus & IH)]; [by exists 0, false|].
  rewrite escapeBytes_path_cons. pose proof (path_byte c) as Hc.
  destruct (url.shouldEscape c P).
  - destruct Hc as (H1 & H2 & _).
    rewrite unescapeScan_path_triple, IH by done. eauto.
  - destruct Hc as (H1 & _).
    rewrite unescapeScan_path_plain, IH by done.
    destruct (Ascii.eqb c "+"); eauto.
Qed.

Lemma unescapeBytes_escapeBytes_path (s : string) :
  url.unescapeBytes (url.escapeBytes s P) P = s.
Proof.
  induction s as [|c s IH]; [reflexivity|].
  rewrite escapeBytes_path_cons. pose proof (path_byte c) as Hc.
  destruct (url.shouldEscape c P).
  - destruct Hc as (_ & _ & Hc & _).
    change (url.unescapeBytes (String "%" (String ?h1 (String ?h2 ?t))) P)
      with (String (ascii_of_N (N.lor (N.shiftl (url.unhex h1) 4) (url.unhex h2)))
              (url.unescapeBytes t P)).
    by rewrite Hc, IH.
  - destruct Hc as (H1 & _). by rewrite unescapeBytes_path_plain, IH.
Qed.

(** Round trip of the path escaping: unescape reads back what escape
    wrote. *)
Lemma unescape_escape_path (s : string) :
  url.unescape (url.escape s P) P = Some s.
Proof.
  rewrite escape_escapeBytes.
  destruct (unescapeScan_escapeBytes_path s) as (n & hasPlus & Hscan).
  destruct (url.unescape (url.escapeBytes s P) P) as [t|] eqn:Hun.
  - apply unescape_unescapeBytes in Hun. by rewrite Hun, unescapeBytes_escapeBytes_path.
  - unfold url.unescape in Hun. rewrite Hscan in Hun.
    by destruct (Nat.eqb n 0 && negb hasPlus).
Qed.

(** setPath on an escaped path: the path is read back and no raw path is
    kept. *)
Lemma setPath_escaped (u : url.URL) (s : string) :
  url.setPath u (url.escape s P) = Some (url.withRawPath (url.withPath u s) "").
Proof.
  unfold url.setPath. rewrite unescape_escape_path. cbn [mbind option_bind].
  by rewrite String.eqb_refl.
Qed.

(** ** Plain host names in a URL *)

Lemma hostname_byte (c : ascii) :
  hostname.isHostnameByte c = true ->
  url.shouldEscape c url.encodeHost = false
  /\ bytes.oneOf c "#?/@:[%+" = false
  /\ url.stringContainsCTLByte (String c "") = false
  /\ (bytes.code c <? 128)%N && url.shouldEscape c url.encodeHost = false.
Proof.
  destruct c as [[] [] [] [] [] [] [] []]; vm_compute; intros H;
    try discriminate H; repeat split.
Qed.

Lemma IndexAny_IndexByte (s chars : string) (c : ascii) :
  strings.IndexAny s chars = None ->
  bytes.oneOf c chars = true ->
  strings.IndexByte s c = None /\ strings.LastIndexByte s c = None.
Proof.
  intros Hs Hc. induction s as [|d s IH]; [done|].
  apply IndexAny_None_inv in Hs as [Hd Hs]. destruct (IH Hs) as [IH1 IH2].
  simpl. rewrite IH1, IH2.
  destruct (Ascii.eqb_spec d c) as [->|_]; [congruence|done].
Qed.

Lemma IndexByte_app_None (a b : string) (c : ascii) :
  strings.IndexByte a c = None -> strings.IndexByte b c = None ->
  strings.IndexByte (a ++ b) c = None.
Proof.
  intros Ha Hb. induction a as [|d a IH]; [done|].
  rewrite append_cons. simpl in Ha |- *.
  destruct (Ascii.eqb d c); [discriminate|].
  destruct (strings.IndexByte a c); [discriminate|]. by rewrite IH.
Qed.

Lemma IndexByte_app_here (a b : string) (c : ascii) :
  strings.IndexByte a c = None ->
  strings.IndexByte (a ++ String c b) c = Some (String.length a)
  /\ strings.take (String.length a) (a ++ String c b) = a
  /\ strings.drop (String.length a) (a ++ String c b) = String c b.
Proof.
  intros Ha. induction a as [|d a IH].
  - simpl. by rewrite Ascii.eqb_refl.
  - rewrite append_cons. simpl in Ha |- *.
    destruct (Ascii.eqb d c); [discriminate|].
    destruct (strings.IndexByte a c) eqn:Hi; [discriminate|].
    destruct (IH eq_refl) as (-> & -> & ->). done.
Qed.

Lemma stringContainsCTLByte_app (a b : string) :
  url.stringContainsCTLByte (a ++ b)
  = url.stringContainsCTLByte a || url.stringContainsCTLByte b.
Proof.
  induction a as [|c a IH]; [reflexivity|].
  rewrite append_cons, stringContainsCTLByte_cons, IH.
  rewrite (stringContainsCTLByte_cons c a). by rewrite orb_assoc.
Qed.

(** What a plain host name is made of. *)
Lemma hostname_bytes (host : string) :
  hostname.allHostnameBytes host = true ->
  url.escape host url.encodeHost = host
  /\ strings.IndexAny host "#?/@:[%+" = None
  /\ url.stringContainsCTLByte host = false
  /\ url.unescapeScan host url.encodeHost = Some (0, false).
Proof.
  rewrite escape_escapeBytes.
  induction host as [|c host IH]; [done|].
  simpl hostname.allHostnameBytes. intros H.
  apply andb_true_iff in H as [Hc Hhost].
  destruct (IH Hhost) as (IH1 & IH2 & IH3 & IH4).
  destruct (hostname_byte c Hc) as (Hesc & Hone & Hctl & Hscan).
  split; [|split; [|split]].
  - rewrite escapeBytes_cons, andb_false_r, Hesc. by rewrite IH1.
  - by apply IndexAny_cons_None.
  - by rewrite stringContainsCTLByte_cons, Hctl, IH3.
  - assert (Hpct : Ascii.eqb c "%" = false /\ Ascii.eqb c "+" = false).
    { simpl in Hone. repeat (apply orb_false_iff in Hone as [? Hone]).
      split; assumption. }
    destruct Hpct as [Hpct Hplus].
    change (url.unescapeScan (String c host) url.encodeHost)
      with (if Ascii.eqb c "%" then
              match host with
              | String h1 (String h2 s3) =>
                  if negb (url.ishex h1) || negb (url.ishex h2) then None
                  else if true && (url.unhex h1 <? 8)%N
                          && negb (Ascii.eqb h1 "2" && Ascii.eqb h2 "5")
                  then None
                  else
                    match url.unescapeScan s3 url.encodeHost with
                    | Some (n, hasPlus) => Some (S n, hasPlus)
                    | None => None
                    end
              | _ => None
              end
            else if Ascii.eqb c "+" then
              match url.unescapeScan host url.encodeHost with
              | Some (n, _) => Some (n, false)
              | None => None
              end
            else if true && (bytes.code c <? 128)%N
                    && url.shouldEscape c url.encodeHost
            then None
            else url.unescapeScan host url.encodeHost).
    rewrite Hpct, Hplus. cbn [andb]. by rewrite Hscan.
Qed.

(** The authority of a URL that is a plain host name. *)
Lemma parseAuthority_hostname (host : string) :
  hostname.allHostnameBytes host = true ->
  url.parseAuthority host = Some (None, host).
Proof.
  intros Hhost. destruct (hostname_bytes host Hhost) as (_ & Hany & _ & Hscan).
  destruct (IndexAny_IndexByte host _ "@" Hany eq_refl) as [_ Hat].
  destruct (IndexAny_IndexByte host _ ":" Hany eq_refl) as [_ Hcolon].
  assert (Hbracket : strings.HasPrefix host "[" = false).
  { destruct host as [|c host]; [reflexivity|].
    apply IndexAny_None_inv in Hany as [Hc _]. simpl in Hc |- *.
    repeat (apply orb_false_iff in Hc as [? Hc]). by rewrite andb_true_r. }
  unfold url.parseAuthority. rewrite Hat.
  unfold url.parseHost. rewrite Hbracket, Hcolon.
  unfold url.unescape. by rewrite Hscan.
Qed.

(** ** The fallback URL of getFullURL, parsed back *)

(** The text http://host/escaped-path parses to its parts. *)
Lemma Parse_http_host_path (host x : string) :
  hostname.allHostnameBytes host = true ->
  url.Parse ("http://" ++ host ++ String "/" (url.escape x P))
  = Some (url.mkURL "http" "" None host (String "/" x) "" false "" "").
Proof.
  intros Hhost.
  destruct (hostname_bytes host Hhost) as (_ & Hany & Hctl & _).
  destruct (escapeBytes_path_safe x) as [Hxctl Hxany].
  rewrite <- escape_escapeBytes in Hxctl, Hxany.
  set (q := url.escape x P) in *.
  assert (Hno : forall c, bytes.oneOf c "#?" = true ->
                          strings.IndexByte ("http://" ++ host ++ String "/" q) c = None
                          /\ strings.IndexByte ("//" ++ host ++ String "/" q) c = None).
  { intros c Hc.
    assert (Hc' : bytes.oneOf c "#?/@:[%+" = true).
    { simpl in Hc |- *. apply orb_true_iff in Hc as [->|Hc]; [done|].
      apply orb_true_iff in Hc as [->|Hc]; [|done]. by rewrite orb_true_r. }
    destruct (IndexAny_IndexByte host _ c Hany Hc') as [Hh _].
    destruct (IndexAny_IndexByte q _ c Hxany Hc) as [Hq _].
    assert (Htail : strings.IndexByte (host ++ String "/" q) c = None).
    { apply IndexByte_app_None; [done|]. simpl. rewrite Hq.
      simpl in Hc. by destruct c as [[] [] [] [] [] [] [] []]. }
    split; (apply IndexByte_app_None; [|done]);
      simpl in Hc; by destruct c as [[] [] [] [] [] [] [] []]. }
  destruct (Hno "#"%char eq_refl) as [Hhash _].
  destruct (Hno "?"%char eq_refl) as [_ Hquest].
  unfold url.Parse, url.split. rewrite Hhash.
  rewrite (parse_scheme_authority_path _ "http" ("//" ++ host ++ String "/" q)
             host (String "/" q) host None
             (url.mkURL "http" "" None host (String "/" x) "" false "" "")).
  - reflexivity.
  - rewrite !stringContainsCTLByte_app, Hctl.
    rewrite (stringContainsCTLByte_cons "/" q), Hxctl. reflexivity.
  - reflexivity.
  - reflexivity.
  - discriminate.
  - exact Hquest.
  - reflexivity.
  - destruct (IndexAny_IndexByte host _ "/" Hany eq_refl) as [Hslash _].
    destruct (IndexByte_app_here host q "/" Hslash) as (Hi & Ht & Hd).
    change (strings.drop 2 ("//" ++ host ++ String "/" q)) with (host ++ String "/" q).
    unfold url.split. by rewrite Hi, Ht, Hd.
  - by apply parseAuthority_hostname.
  - unfold q. rewrite <- escape_path_slash. by rewrite setPath_escaped.
Qed.

(** X11: the best-effort URL of getFullURL is a well-formed URL. When the
    raw URL does not parse and the host is a plain host name, the text
    getFullURL returns parses, and gives back scheme http, the host, and
    the raw string as path, byte for byte, behind a slash if it has none
    in front; there is no query and no fragment, whatever the raw string
    holds. *)
Theorem getFullURL_fallback_parses (rawurl host : string) :
  url.Parse rawurl = None ->
  hostname.isHostname host = true ->
  url.Parse (authorize.getFullURL rawurl host)
  = Some (url.mkURL "http" "" None host
            (if strings.HasPrefix rawurl "/" then rawurl else "/" ++ rawurl)
            "" false "" "").
Proof.
  intros Hparse Hhost. unfold hostname.isHostname in Hhost.
  apply andb_true_iff in Hhost as [Hne Hhost]. apply nonEmpty_true in Hne.
  destruct (hostname_bytes host Hhost) as (Hesc & _).
  assert (Hstar : rawurl <> "*") by (intros ->; by rewrite Parse_star in Hparse).
  unfold authorize.getFullURL. rewrite (fullURL_fallback _ _ Hparse).
  rewrite (URL_String_fallback _ _ Hstar Hne), Hesc.
  destruct rawurl as [|c r]; [discriminate Hparse|].
  destruct (Ascii.eqb_spec c "/") as [->|Hc].
  - rewrite escape_path_slash. apply (Parse_http_host_path host r Hhost).
  - assert (Hp : exists d t, url.escape (String c r) P = String d t
                             /\ Ascii.eqb d "/" = false) .
    { rewrite escape_escapeBytes, escapeBytes_path_cons.
      destruct (url.shouldEscape c P); eexists _, _; (split; [reflexivity|]);
        [reflexivity | by apply Ascii.eqb_neq]. }
    destruct Hp as (d & t & Hp & Hd).
    assert (Hslash : strings.HasPrefix (String c r) "/" = false).
    { simpl. apply Ascii.eqb_neq in Hc. by rewrite Hc. }
    rewrite Hslash.
    replace (if String.eqb (url.escape (String c r) P) ""
                || strings.HasPrefix (url.escape (String c r) P) "/"
             then "" else "/") with "/".
    + apply (Parse_http_host_path host (String c r) Hhost).
    + rewrite Hp. simpl. by rewrite Hd.
Qed.

Lemma getFullURL_fallback_parses_witness :
  url.Parse (authorize.getFullURL "a b%zz?x#y" "example.com")
  = Some (url.mkURL "http" "" None "example.com" "/a b%zz?x#y" "" false "" "").
Proof.
  apply (getFullURL_fallback_parses "a b%zz?x#y" "example.com"); reflexivity.
Defined.

(** ** A verifier that cannot be built *)

Section VerifierFailure.

Context {Encoder Store : Type}.
Variable NewHS256Signer : string -> string -> Encoder + error.
Variable NewStore : cookie.Options -> Encoder -> Store + error.
Variable LoadSession : Store -> gmap string (list string) -> string * option error.
Variable pe : evaluator.Request -> pb.IsAuthorizedReply + error.
Variable currentOptions : config.Options.
Variable QueryRedirectURI : string.
Variable mapRange : gmap string string -> list (string * string).

(** X12: when the signer, or the cookie store built on it, cannot be
    constructed, the cookie store is not asked for a session: the evaluator
    is called with an empty user, and Check answers Allowed if it allows and
    otherwise the DeniedForbidden response whose message is the text of the
    construction error. *)
Theorem Check_verifier_failure req detail requestURL reply :
  NewHS256Signer (config.SharedKey currentOptions)
    (url.Host (config.AuthenticateURL currentOptions)) = inr (Other detail)
  \/ (exists encoder,
        NewHS256Signer (config.SharedKey currentOptions)
          (url.Host (config.AuthenticateURL currentOptions)) = inl encoder
        /\ NewStore
             (cookie.mkOptions (config.CookieName currentOptions)
                (config.CookieDomain currentOptions)
                (config.CookieSecure currentOptions)
                (config.CookieHTTPOnly currentOptions)
                (config.CookieExpire currentOptions))
             encoder = inr (Other detail)) ->
  authorize.getCheckRequestURL req = Some requestURL ->
  pe (authorize.checkEvaluatorRequest mapRange req "" requestURL) = inl reply ->
  authorize.loadSessionFromCheckRequest NewHS256Signer NewStore LoadSession
    currentOptions mapRange req = ("", Some (Other detail))
  /\ authorize.Check NewHS256Signer NewStore LoadSession pe currentOptions
       QueryRedirectURI mapRange req
     = Return (if pb.Allow reply then authorize.allowed
               else authorize.deniedForbidden detail).
Proof.
  intros Hfail Hurl Hpe.
  assert (Hsess : authorize.loadSessionFromCheckRequest NewHS256Signer NewStore
                    LoadSession currentOptions mapRange req
                  = ("", Some (Other detail))).
  { unfold authorize.loadSessionFromCheckRequest.
    destruct Hfail as [->|(encoder & -> & ->)]; reflexivity. }
  split; [exact Hsess|].
  rewrite (Check_unfold _ _ _ _ _ _ _ _ _ _ _ Hsess Hurl), Hpe.
  by destruct (pb.Allow reply).
Qed.

End VerifierFailure.

Lemma Check_verifier_failure_witness :
  authorize.loadSessionFromCheckRequest
    (fun _ _ => inr (Other "invalid key size") : unit + error)
    examples.newStore (examples.loadSession ("session-token", None))
    examples.options map_to_list examples.checkRequest
  = ("", Some (Other "invalid key size"))
  /\ authorize.Check
       (fun _ _ => inr (Other "invalid key size") : unit + error)
       examples.newStore (examples.loadSession ("session-token", None))
       (examples.evaluate (inl examples.deny)) examples.options
       "pomerium_redirect_uri" map_to_list examples.checkRequest
     = Return (if pb.Allow examples.deny then authorize.allowed
               else authorize.deniedForbidden "invalid key size").
Proof.
  apply (Check_verifier_failure
           (fun _ _ => inr (Other "invalid key size") : unit + error)
           examples.newStore (examples.loadSession ("session-token", None))
           (examples.evaluate (inl examples.deny)) examples.options
           "pomerium_redirect_uri" map_to_list examples.checkRequest
           "invalid key size" examples.requestURL examples.deny).
  - left. reflexivity.
  - reflexivity.
  - reflexivity.
Defined.

(** ** The Location of a redirect, parsed back *)

Lemma query_byte_safe (c : ascii) :
  if Ascii.eqb c " " then True
  else if url.shouldEscape c Q then
    let h1 := url.upperhex (N.shiftr (bytes.code c) 4) in
    let h2 := url.upperhex (N.land (bytes.code c) 15) in
    bytes.oneOf h1 "#?" = false /\ bytes.oneOf h2 "#?" = false
    /\ url.stringContainsCTLByte (String h1 (String h2 "")) = false
  else
    bytes.oneOf c "#?" = false /\ url.stringContainsCTLByte (String c "") = false.
Proof.
  destruct c as [[] [] [] [] [] [] [] []]; vm_compute; repeat split.
Qed.

(** An escaped query component holds no control byte, no '#' and no '?'. *)
Lemma escapeBytes_query_safe (s : string) :
  url.stringContainsCTLByte (url.escapeBytes s Q) = false
  /\ strings.IndexAny (url.escapeBytes s Q) "#?" = None.
Proof.
  induction s as [|c s [IH1 IH2]]; [done|].
  rewrite escapeBytes_cons. pose proof (query_byte_safe c) as Hc.
  destruct (Ascii.eqb c " "); simpl andb; cbv iota.
  - split; [by rewrite stringContainsCTLByte_cons, IH1|].
    by apply IndexAny_cons_None.
  - destruct (url.shouldEscape c Q).
    + destruct Hc as (H1 & H2 & Hctl). split.
      * by rewrite stringContainsCTLByte_triple, Hctl, IH1.
      * by repeat apply IndexAny_cons_None.
    + destruct Hc as (H1 & Hctl). split.
      * by rewrite stringContainsCTLByte_cons, Hctl, IH1.
      * by apply IndexAny_cons_None.
Qed.

Lemma last_app (a b : string) (c : ascii) :
  strings.last (a ++ String c b) = strings.last (String c b).
Proof.
  induction a as [|e a IH]; [reflexivity|].
  rewrite append_cons.
  change (strings.last (String e (a ++ String c b)))
    with (match a ++ String c b with
          | EmptyString => Some e
          | String _ _ => strings.last (a ++ String c b)
          end).
  rewrite IH. destruct a; reflexivity.
Qed.

Lemma HasSuffixByte_app (a b : string) (c d : ascii) :
  strings.HasSuffixByte (a ++ String c b) d = strings.HasSuffixByte (String c b) d.
Proof. unfold strings.HasSuffixByte. by rewrite last_app. Qed.

(** parse, on a text without control byte, made of a scheme, two slashes,
    an authority, a path and a query that does not end the text with its
    question mark. *)
Lemma parse_scheme_authority_path_query
    (text scheme rest rest' query authority path host : string)
    (user : option url.Userinfo) (u : url.URL) :
  url.stringContainsCTLByte text = false ->
  String.eqb text "*" = false ->
  url.getscheme text = Some (scheme, rest) ->
  strings.ToLower scheme <> "" ->
  strings.HasSuffixByte rest "?" = false ->
  url.split rest "?" true = (rest', query) ->
  strings.HasPrefix rest' "//" = true ->
  url.split (strings.drop 2 rest') "/" false = (authority, path) ->
  url.parseAuthority authority = Some (user, host) ->
  url.setPath
    (url.withHost
       (url.withUser
          (url.withRawQuery (url.withScheme url.zero (strings.ToLower scheme)) query)
          user) host) path = Some u ->
  url.parse text false = Some u.
Proof.
  intros Hctl Hstar Hscheme Hne Hsuffix Hq Hslashes Hsplit Hauth Hpath.
  unfold url.parse. rewrite Hctl, Hstar, andb_false_r, Hscheme.
  cbn [mbind option_bind]. rewrite Hsuffix. cbn [andb]. rewrite Hq.
  assert (Hslash : strings.HasPrefix rest' "/" = true).
  { destruct rest' as [|c r]; [discriminate|]. simpl in Hslashes |- *.
    apply andb_true_iff in Hslashes as [-> _]. reflexivity. }
  apply nonEmpty_true in Hne.
  rewrite Hslash. cbn [negb andb url.Scheme url.withRawQuery url.withScheme].
  rewrite Hne, Hslashes. cbn [orb andb]. rewrite Hsplit, Hauth.
  cbn [mbind option_bind]. exact Hpath.
Qed.

Lemma drop_S_app (a b : string) (c : ascii) :
  strings.drop (S (String.length a)) (a ++ String c b) = b.
Proof. induction a as [|d a IH]; [reflexivity|]. rewrite append_cons. exact IH. Qed.

(** The text of a sign-in URL with scheme http or https and a plain host
    name parses to its parts. *)
Lemma Parse_sign_in (s host k v : string) :
  s = "http" \/ s = "https" ->
  hostname.allHostnameBytes host = true ->
  url.Parse (s ++ "://" ++ host ++ "/.pomerium/sign_in?"
               ++ url.QueryEscape k ++ "=" ++ url.QueryEscape v)
  = Some (url.mkURL s "" None host "/.pomerium/sign_in" "" false
            (url.QueryEscape k ++ "=" ++ url.QueryEscape v) "").
Proof.
  intros Hs Hhost. unfold url.QueryEscape. rewrite !escape_escapeBytes.
  destruct (hostname_bytes host Hhost) as (_ & Hany & Hctl & _).
  destruct (escapeBytes_query_safe k) as [Hkctl Hkany].
  destruct (escapeBytes_query_safe v) as [Hvctl Hvany].
  set (K := url.escapeBytes k Q) in *. set (V := url.escapeBytes v Q) in *.
  set (pre := "//" ++ host ++ "/.pomerium/sign_in").
  set (rest := pre ++ String "?" (K ++ "=" ++ V)).
  assert (Htext : s ++ "://" ++ host ++ "/.pomerium/sign_in?" ++ K ++ "=" ++ V
                  = s ++ ":" ++ rest).
  { unfold rest, pre. by app_norm. }
  rewrite Htext.
  assert (Hpre : forall c, bytes.oneOf c "#?" = true -> strings.IndexByte pre c = None).
  { intros c Hc.
    assert (Hc' : bytes.oneOf c "#?/@:[%+" = true).
    { simpl in Hc |- *. apply orb_true_iff in Hc as [->|Hc]; [done|].
      apply orb_true_iff in Hc as [->|Hc]; [|done]. by rewrite orb_true_r. }
    destruct (IndexAny_IndexByte host _ c Hany Hc') as [Hh _].
    unfold pre. apply IndexByte_app_None; [|apply IndexByte_app_None; [done|]];
      simpl in Hc; by destruct c as [[] [] [] [] [] [] [] []]. }
  assert (Hqs : forall c, bytes.oneOf c "#?" = true ->
                          strings.IndexByte (K ++ "=" ++ V) c = None).
  { intros c Hc.
    destruct (IndexAny_IndexByte K _ c Hkany Hc) as [HK _].
    destruct (IndexAny_IndexByte V _ c Hvany Hc) as [HV _].
    apply IndexByte_app_None; [done|].
    change ("=" ++ V) with (String "=" V). simpl. rewrite HV.
    simpl in Hc. by destruct c as [[] [] [] [] [] [] [] []]. }
  assert (Hhash : strings.IndexByte (s ++ ":" ++ rest) "#" = None).
  { apply IndexByte_app_None; [by destruct Hs as [->| ->]|].
    apply (IndexByte_app_None ":"); [reflexivity|].
    unfold rest. apply IndexByte_app_None; [by apply Hpre|].
    simpl. by rewrite (Hqs "#"%char eq_refl). }
  unfold url.Parse, url.split at 1. rewrite Hhash.
  rewrite (parse_scheme_authority_path_query _ s rest pre (K ++ "=" ++ V)
             host "/.pomerium/sign_in" host None
             (url.mkURL s "" None host "/.pomerium/sign_in" "" false
                (K ++ "=" ++ V) "")).
  - reflexivity.
  - unfold rest, pre. rewrite !stringContainsCTLByte_app, Hctl.
    rewrite (stringContainsCTLByte_cons "?"), !stringContainsCTLByte_app.
    rewrite Hkctl, Hvctl. by destruct Hs as [->| ->].
  - by destruct Hs as [->| ->].
  - by destruct Hs as [->| ->].
  - by destruct Hs as [->| ->].
  - unfold rest. rewrite HasSuffixByte_app.
    change (String "?" (K ++ "=" ++ V)) with (String "?" K ++ String "=" V).
    rewrite HasSuffixByte_app. apply IndexByte_None_HasSuffixByte.
    destruct (IndexAny_IndexByte V _ "?" Hvany eq_refl) as [HV _].
    simpl. by rewrite HV.
  - unfold url.split, rest.
    destruct (IndexByte_app_here pre (K ++ "=" ++ V) "?" (Hpre "?"%char eq_refl))
      as (-> & -> & _).
    by rewrite drop_S_app.
  - reflexivity.
  - destruct (IndexAny_IndexByte host _ "/" Hany eq_refl) as [Hslash _].
    destruct (IndexByte_app_here host ".pomerium/sign_in" "/" Hslash) as (Hi & Ht & Hd).
    change (strings.drop 2 pre) with (host ++ String "/" ".pomerium/sign_in").
    unfold url.split. by rewrite Hi, Ht, Hd.
  - by apply parseAuthority_hostname.
  - by destruct Hs as [->| ->].
Qed.

Section LocationParsed.

Context {Encoder Store : Type}.
Variable NewHS256Signer : string -> string -> Encoder + error.
Variable NewStore : cookie.Options -> Encoder -> Store + error.
Variable LoadSession : Store -> gmap string (list string) -> string * option error.
Variable pe : evaluator.Request -> pb.IsAuthorizedReply + error.
Variable currentOptions : config.Options.
Variable QueryRedirectURI : string.
Variable mapRange : gmap string string -> list (string * string).

(** X13: the Location of a redirect is a well-formed URL. When the request
    URL has scheme http or https and a plain host name, the text Check
    puts in the Location header parses, to a URL with that scheme and
    host and the path /.pomerium/sign_in, without fragment, and reading
    the return-redirect parameter from its query gives the text of the
    request URL, byte for byte. *)
Theorem Check_location_parses req loc requestURL :
  authorize.Check NewHS256Signer NewStore LoadSession pe currentOptions
    QueryRedirectURI mapRange req
  = Return (authorize.deniedUnauthenticatedRedirect loc) ->
  authorize.getCheckRequestURL req = Some requestURL ->
  url.Scheme requestURL = "http" \/ url.Scheme requestURL = "https" ->
  hostname.isHostname (url.Host requestURL) = true ->
  exists parsed,
    url.Parse loc = Some parsed
    /\ url.Scheme parsed = url.Scheme requestURL
    /\ url.Host parsed = url.Host requestURL
    /\ url.Path parsed = "/.pomerium/sign_in"
    /\ url.Fragment parsed = ""
    /\ url.Values_Get (url.URL_Query parsed) QueryRedirectURI
       = url.URL_String requestURL.
Proof.
  intros Hcheck Hurl Hscheme Hhost.
  apply Check_redirect_location in Hcheck as (u & Hurl' & ->).
  rewrite Hurl in Hurl'. injection Hurl' as <-.
  unfold hostname.isHostname in Hhost.
  apply andb_true_iff in Hhost as [Hne Hhost]. apply nonEmpty_true in Hne.
  destruct (hostname_bytes _ Hhost) as (Hesc & _).
  rewrite signInURL_text, Hesc;
    [ | by destruct Hscheme as [->| ->] | exact Hne
      | exact (getCheckRequestURL_user req _ Hurl) ].
  rewrite (Parse_sign_in _ _ _ _ Hscheme Hhost).
  eexists. split; [reflexivity|].
  cbn [url.Scheme url.Host url.Path url.Fragment].
  do 4 (split; [reflexivity|]).
  unfold url.URL_Query. cbn [url.RawQuery]. rewrite ParseQuery_pair.
  unfold url.Values_Get. cbn [fst]. rewrite lookup_singleton_eq. reflexivity.
Qed.

End LocationParsed.

Lemma Check_location_parses_witness :
  exists parsed,
    url.Parse
      "https://a.com/.pomerium/sign_in?pomerium_redirect_uri=https%3A%2F%2Fa.com%2Fa%2520b%3Fx%3D1%26y"
    = Some parsed
    /\ url.Scheme parsed = url.Scheme examples.requestURL
    /\ url.Host parsed = url.Host examples.requestURL
    /\ url.Path parsed = "/.pomerium/sign_in"
    /\ url.Fragment parsed = ""
    /\ url.Values_Get (url.URL_Query parsed) "pomerium_redirect_uri"
       = url.URL_String examples.requestURL.
Proof.
  apply (Check_location_parses
           examples.newSigner examples.newStore
           (examples.loadSession ("", Some ErrExpired))
           (examples.evaluate (inl examples.deny)) examples.options
           "pomerium_redirect_uri" map_to_list examples.checkRequest).
  - reflexivity.
  - reflexivity.
  - right. reflexivity.
  - reflexivity.
Defined.

(** ** Check and the order of the header map *)

Section CheckOrder.

Context {Encoder Store : Type}.
Variable NewHS256Signer : string -> string -> Encoder + error.
Variable NewStore : cookie.Options -> Encoder -> Store + error.
Variable LoadSession : Store -> gmap string (list string) -> string * option error.
Variable pe : evaluator.Request -> pb.IsAuthorizedReply + error.
Variable currentOptions : config.Options.
Variable QueryRedirectURI : string.

(** X14: when no two keys of the request's header map have the same
    canonical form, the outcome of Check does not depend on the order in
    which Go ranges over the header map: the cookie store and the
    evaluator are asked with the same header map, whatever the order. *)
Theorem Check_order_independent
    (mapRange1 mapRange2 : gmap string string -> list (string * string))
    (req : auth.CheckRequest) :
  (forall h, auth.Http req = Some h ->
     mapRange1 (auth.Headers h) ≡ₚ map_to_list (auth.Headers h)
     /\ mapRange2 (auth.Headers h) ≡ₚ map_to_list (auth.Headers h)
     /\ forall k1 k2,
          is_Some (auth.Headers h !! k1) -> is_Some (auth.Headers h !! k2) ->
          http.CanonicalHeaderKey k1 = http.CanonicalHeaderKey k2 -> k1 = k2) ->
  authorize.Check NewHS256Signer NewStore LoadSession pe currentOptions
    QueryRedirectURI mapRange1 req
  = authorize.Check NewHS256Signer NewStore LoadSession pe currentOptions
      QueryRedirectURI mapRange2 req.
Proof.
  intros Hreq.
  assert (Hheaders : authorize.getCheckRequestHeaders mapRange1 req
                     = authorize.getCheckRequestHeaders mapRange2 req).
  { destruct (auth.Http req) as [h|] eqn:Hh.
    - destruct (Hreq h eq_refl) as (Hp1 & Hp2 & Hinj).
      by apply (headers_equal_any_order _ _ req h Hp1 Hp2 Hh Hinj).
    - unfold authorize.getCheckRequestHeaders. by rewrite Hh. }
  unfold authorize.Check, authorize.loadSessionFromCheckRequest,
    authorize.checkEvaluatorRequest.
  by rewrite Hheaders.
Qed.

End CheckOrder.

Lemma Check_order_independent_witness :
  authorize.Check examples.newSigner examples.newStore
    (examples.loadSession ("", Some ErrExpired))
    (examples.evaluate (inl examples.deny)) examples.options
    "pomerium_redirect_uri" map_to_list examples.checkRequest
  = authorize.Check examples.newSigner examples.newStore
      (examples.loadSession ("", Some ErrExpired))
      (examples.evaluate (inl examples.deny)) examples.options
      "pomerium_redirect_uri" (fun m => reverse (map_to_list m))
      examples.checkRequest.
Proof.
  apply (Check_order_independent
           examples.newSigner examples.newStore
           (examples.loadSession ("", Some ErrExpired))
           (examples.evaluate (inl examples.deny)) examples.options
           "pomerium_redirect_uri" map_to_list (fun m => reverse (map_to_list m))
           examples.checkRequest).
  intros h Hh. injection Hh as <-.
  split; [reflexivity|]. split; [apply reverse_Permutation|].
  intros k1 k2 [v1 H1] [v2 H2] Hcanon. simpl in H1, H2.
  apply lookup_insert_Some in H1 as [[<- _]|[_ H1]];
    apply lookup_insert_Some in H2 as [[<- _]|[_ H2]];
    try apply lookup_singleton_Some in H1 as [<- _];
    try apply lookup_singleton_Some in H2 as [<- _];
    first [reflexivity | discriminate Hcanon].
Defined.

(** ** The Location of a redirect *)

(** The sign-in URL of a request URL without user part, as a value. *)
Lemma signInURL_value (QueryRedirectURI : string) (u : url.URL) :
  url.User u = None ->
  authorize.signInURL QueryRedirectURI u
  = url.mkURL (url.Scheme u) "" None (url.Host u) "/.pomerium/sign_in" ""
      false
      (url.QueryEscape QueryRedirectURI ++ "=" ++ url.QueryEscape (url.URL_String u))
      "".
Proof. intros Hu. by rewrite signInURL_fields, Hu. Qed.

(** The text of the sign-in URL of a request URL with scheme http or https
    and a plain host name parses to the sign-in URL. *)
Lemma signInURL_parses (QueryRedirectURI : string) (u : url.URL) :
  url.Scheme u = "http" \/ url.Scheme u = "https" ->
  hostname.isHostname (url.Host u) = true ->
  url.User u = None ->
  url.Parse (url.URL_String (authorize.signInURL QueryRedirectURI u))
  = Some (url.mkURL (url.Scheme u) "" None (url.Host u) "/.pomerium/sign_in" ""
            false
            (url.QueryEscape QueryRedirectURI ++ "="
               ++ url.QueryEscape (url.URL_String u))
            "").
Proof.
  intros Hscheme Hhost Hu. unfold hostname.isHostname in Hhost.
  apply andb_true_iff in Hhost as [Hne Hhost]. apply nonEmpty_true in Hne.
  destruct (hostname_bytes _ Hhost) as (Hesc & _).
  rewrite signInURL_text, Hesc;
    [ | by destruct Hscheme as [->| ->] | exact Hne | exact Hu ].
  exact (Parse_sign_in _ _ _ _ Hscheme Hhost).
Qed.

Section RedirectLocation.

Context {Encoder Store : Type}.
Variable NewHS256Signer : string -> string -> Encoder + error.
Variable NewStore : cookie.Options -> Encoder -> Store + error.
Variable LoadSession : Store -> gmap string (list string) -> string * option error.
Variable pe : evaluator.Request -> pb.IsAuthorizedReply + error.
Variable currentOptions : config.Options.
Variable QueryRedirectURI : string.
Variable mapRange : gmap string string -> list (string * string).

Local Abbreviation Check :=
  (authorize.Check NewHS256Signer NewStore LoadSession pe currentOptions
     QueryRedirectURI mapRange).
Local Abbreviation loadSessionFromCheckRequest :=
  (authorize.loadSessionFromCheckRequest NewHS256Signer NewStore LoadSession
     currentOptions mapRange).
Local Abbreviation checkEvaluatorRequest := (authorize.checkEvaluatorRequest mapRange).

(** C1: when the evaluator answers allow=false and the session error is
    one of the five recoverable kinds (Expired, IssuedInFuture, Malformed,
    NoSessionFound, NotValidYet), Check returns the
    DeniedUnauthenticatedRedirect response, not a DeniedForbidden one:
    status Unauthenticated, HTTP status Found and one Location header.
    The Location is the text of the sign-in URL: the URL with the scheme
    and the host of the request URL, the path /.pomerium/sign_in and the
    query parameter=escaped text of the request URL. With a scheme and a
    host it reads scheme://host/.pomerium/sign_in?parameter=value, and for
    scheme http or https and a plain host name it parses to that URL. *)
Theorem C1_recoverable_session_error_redirects req sess sesserr requestURL reply :
  loadSessionFromCheckRequest req = (sess, Some sesserr) ->
  sesserr ∈ [ErrExpired; ErrIssuedInTheFuture; ErrMalformed;
             ErrNoSessionFound; ErrNotValidYet] ->
  authorize.getCheckRequestURL req = Some requestURL ->
  pe (checkEvaluatorRequest req sess requestURL) = inl reply ->
  pb.Allow reply = false ->
  exists resp loc,
    Check req = Return resp
    /\ auth.Status resp
       = status.mkStatus (codes.int32 codes.Unauthenticated) "unauthenticated"
    /\ auth.HttpResponse resp
       = auth.CheckResponse_DeniedResponse
           (auth.mkDeniedHttpResponse
              (envoy_type.mkHttpStatus envoy_type.StatusCode_Found)
              [envoy_api_v2_core.mkHeaderValueOption
                 (envoy_api_v2_core.mkHeaderValue "Location" loc)]
              "")
    /\ (forall msg, resp <> authorize.deniedForbidden msg)
    /\ loc
       = url.URL_String
           (url.mkURL (url.Scheme requestURL) "" None (url.Host requestURL)
              "/.pomerium/sign_in" "" false
              (url.QueryEscape QueryRedirectURI ++ "="
                 ++ url.QueryEscape (url.URL_String requestURL))
              "")
    /\ (url.Scheme requestURL <> "" -> url.Host requestURL <> "" ->
        loc = url.Scheme requestURL ++ "://"
                ++ url.escape (url.Host requestURL) url.encodeHost
                ++ "/.pomerium/sign_in?" ++ url.QueryEscape QueryRedirectURI
                ++ "=" ++ url.QueryEscape (url.URL_String requestURL))
    /\ (url.Scheme requestURL = "http" \/ url.Scheme requestURL = "https" ->
        hostname.isHostname (url.Host requestURL) = true ->
        url.Parse loc
        = Some (url.mkURL (url.Scheme requestURL) "" None (url.Host requestURL)
                  "/.pomerium/sign_in" "" false
                  (url.QueryEscape QueryRedirectURI ++ "="
                     ++ url.QueryEscape (url.URL_String requestURL))
                  "")).
Proof.
  intros Hsess Hkind Hurl Hpe Hdeny.
  pose proof (getCheckRequestURL_user req _ Hurl) as Huser.
  exists (authorize.deniedUnauthenticatedRedirect
            (url.URL_String (authorize.signInURL QueryRedirectURI requestURL))),
         (url.URL_String (authorize.signInURL QueryRedirectURI requestURL)).
  split.
  { rewrite (Check_unfold _ _ _ _ _ _ _ _ _ _ _ Hsess Hurl), Hpe, Hdeny.
    destruct sesserr; try reflexivity.
    exfalso. repeat (apply elem_of_cons in Hkind as [Hkind|Hkind]; [discriminate Hkind|]).
    by apply elem_of_nil in Hkind. }
  split; [reflexivity|]. split; [reflexivity|].
  split; [intros msg H; discriminate H|].
  split; [by rewrite (signInURL_value _ _ Huser)|].
  split.
  - intros Hs Hh. by apply signInURL_text.
  - intros Hs Hh. by apply signInURL_parses.
Qed.


End RedirectLocation.

(** Witness of C1: the example request, an expired session, a denying
    evaluator. *)
Lemma C1_witness :
  exists resp,
    examples.check ("", Some ErrExpired) (inl examples.deny) examples.checkRequest
    = Return resp
    /\ auth.Status resp = status.mkStatus 16 "unauthenticated"
    /\ auth.HttpResponse resp
       = auth.CheckResponse_DeniedResponse
           (auth.mkDeniedHttpResponse
              (envoy_type.mkHttpStatus envoy_type.StatusCode_Found)
              [envoy_api_v2_core.mkHeaderValueOption
                 (envoy_api_v2_core.mkHeaderValue "Location"
                    "https://a.com/.pomerium/sign_in?pomerium_redirect_uri=https%3A%2F%2Fa.com%2Fa%2520b%3Fx%3D1%26y")]
              "")
    /\ (forall msg, resp <> authorize.deniedForbidden msg)
    /\ url.Parse
         "https://a.com/.pomerium/sign_in?pomerium_redirect_uri=https%3A%2F%2Fa.com%2Fa%2520b%3Fx%3D1%26y"
       = Some (url.mkURL "https" "" None "a.com" "/.pomerium/sign_in" "" false
                 "pomerium_redirect_uri=https%3A%2F%2Fa.com%2Fa%2520b%3Fx%3D1%26y" "").
Proof.
  destruct (C1_recoverable_session_error_redirects
              examples.newSigner examples.newStore
              (examples.loadSession ("", Some ErrExpired))
              (examples.evaluate (inl examples.deny)) examples.options
              "pomerium_redirect_uri" map_to_list examples.checkRequest
              "" ErrExpired examples.requestURL examples.deny
              eq_refl (list_elem_of_here _ _) eq_refl eq_refl eq_refl)
    as (resp & loc & Hcheck & Hstatus & Hhttp & Hnot & Hloc & Htext & Hparse).
  assert (Hlocation :
            loc = "https://a.com/.pomerium/sign_in?pomerium_redirect_uri=https%3A%2F%2Fa.com%2Fa%2520b%3Fx%3D1%26y").
  { rewrite Hloc. reflexivity. }
  rewrite Hlocation in Hhttp, Hparse.
  exists resp. split; [exact Hcheck|]. split; [exact Hstatus|].
  split; [exact Hhttp|]. split; [exact Hnot|].
  apply Hparse; [right; reflexivity | reflexivity].
Defined.


